(** * Dropbox sync: the sync-direction decision and one sync attempt

    A shallow embedding of [DropboxSyncService]
    (src/app/features/dropbox/dropbox-sync.service.ts).

    Timestamps are JavaScript numbers holding whole milliseconds; they are
    integers here ([Z]).  [clientUpdate / 1000] is a true division in the
    source, so the seconds value of the remote is a rational ([Q]), while
    [Math.floor (x / 1000)] is the floor division of [Z].

    An attempt is a computation in a small monad that threads the
    [localStorage] bookkeeping, may throw, and records every effect it
    performs, in order, in a trace.

    The service is embedded twice: first over snapshots whose change time
    is a number, then, in [Nullable], over snapshots whose change time may
    be [undefined] or [null], where [_setLocalLastSync] can refuse its
    argument.  The two agree on numbers. *)

From Stdlib Require Import ZArith QArith List String Bool Lia.
Import ListNotations.
Open Scope string_scope.
Open Scope list_scope.
Open Scope Z_scope.

(** ** Data *)

(** [AppDataComplete]: only [lastLocalSyncModelChange] is read by the service;
    [appData] stands for all the other fields of the snapshot. *)
Record AppDataComplete := mkAppData {
  lastLocalSyncModelChange : Z;
  appData : string
}.

(** [DropboxFileMetadata]: [client_modified] is kept as the instant
    [new Date(r.client_modified).getTime()] yields, in milliseconds. *)
Record DropboxFileMetadata := mkMeta {
  rev : string;
  client_modified : Z
}.

(** [UpdateCheckResult] of check-for-update.util. *)
Inductive UpdateCheckResult :=
| InSync
| LocalUpdateRequired
| RemoteUpdateRequired
| DataDiverged
| LastSyncNotUpToDate.

(** The argument of [checkForUpdate] and of the conflict dialog. *)
Record SyncPoint := mkSyncPoint {
  local : Z;
  lastSync : Z;
  remote : Z
}.

(** Modelled from the spec: check-for-update.util.ts is imported by the
    service and is not among the sources.  This is the decision table of
    section 4.2, evaluated in priority order, first match wins. *)
Definition checkForUpdate (p : SyncPoint) : UpdateCheckResult :=
  if (remote p =? lastSync p) && (local p =? lastSync p) then InSync
  else if (remote p =? lastSync p) && (local p >? lastSync p) then RemoteUpdateRequired
  else if (local p =? lastSync p) && (remote p >? lastSync p) then LocalUpdateRequired
  else if (remote p >? lastSync p) && (local p >? lastSync p) then DataDiverged
  else LastSyncNotUpToDate.

(** The three [localStorage] items of the service.  Values are kept typed:
    the service stores a number with [toString()] and reads it back with
    unary [+], which gives the same integer; [None] is an absent item (for
    the last-sync item also one that does not read as a number). *)
Record LocalStorage := mkLs {
  LS_DROPBOX_LAST_LOCAL_REVISION : option string;
  LS_DROPBOX_LOCAL_LAST_SYNC : option Z;
  LS_DROPBOX_LOCAL_LAST_SYNC_CHECK : option Z
}.

(** Errors an attempt can end with. *)
Inductive SyncError :=
| TransportError       (* a rejected promise of DropboxApiService *)
| ImportError          (* a rejected promise of DataImportService *)
| NoRevGiven.          (* Error('No rev given') *)

Inductive Res (A : Type) :=
| Ok (a : A)
| Err (e : SyncError).
Arguments Ok {A} a.
Arguments Err {A} e.

(** The messages handed to [dbxLog]. *)
Inductive DbxLog :=
| PRE1_SameRev            (* 'DBX PRE1: <-> Same Rev' *)
| PRE1_NoLocalChanges     (* 'DBX PRE1: No local changes to sync' *)
| PRE2_UpdateRemote       (* 'DBX PRE2: ^ Update Remote' *)
| DBX_InSync              (* 'DBX: <-> In Sync => No Update' *)
| DBX_UpdateLocal         (* 'DBX: v Update Local' *)
| DBX_UpdateRemote        (* 'DBX: ^ Update Remote' *)
| DBX_Separator           (* '^--------^-------^' *)
| DBX_DivergedData        (* 'DBX: X Diverged Data' *)
| Dialog_RemoteUpdate     (* 'DBX: Dialog => ^ Remote Update' *)
| Dialog_UpdateLocal      (* 'DBX: Dialog => v Update Local' *)
| DBX_Imported            (* 'DBX: v Imported Data v' *)
| DBX_Uploaded.           (* 'DBX: ^ Uploaded Data ^' *)

(** Every effect of an attempt, with what the collaborator answered. *)
Inductive Event :=
| EvReady (isReady : bool)
| EvGetLocalRev
| EvGetLocalLastSync
| EvSetLocalRev (r : string)
| EvSetLocalLastSync (t : Z)
| EvSetLocalLastSyncCheck (t : Z)
| EvGetMetaData (res : Res DropboxFileMetadata)
| EvInMemory
| EvDownload (localRev : option string) (res : Res (DropboxFileMetadata * AppDataComplete))
| EvUpload (data : AppDataComplete) (clientModified : Z) (res : Res DropboxFileMetadata)
| EvImport (data : AppDataComplete) (res : Res unit)
| EvDialog (p : SyncPoint) (answer : option string)
| EvLog (m : DbxLog).

(** What the collaborators of the service answer during one attempt: the
    first value of [isEnabledAndReady$], [Date.now()], the Dropbox API, the
    in-memory snapshot, the data import and the conflict dialog ([None] when
    the dialog is closed without a choice). *)
Record Env := mkEnv {
  isEnabledAndReady : bool;
  now : Z;
  getMetaData : Res DropboxFileMetadata;
  inMemory : AppDataComplete;
  download : Res (DropboxFileMetadata * AppDataComplete);
  upload : AppDataComplete -> Z -> Res DropboxFileMetadata;
  importCompleteSyncData : AppDataComplete -> Res unit;
  dialogAfterClosed : option string
}.

(** ** The monad of an attempt *)

Definition M (A : Type) : Type :=
  LocalStorage -> Res A * LocalStorage * list Event.

Definition ret {A} (a : A) : M A := fun ls => (Ok a, ls, []).

Definition throw {A} (e : SyncError) : M A := fun ls => (Err e, ls, []).

Definition bind {A B} (m : M A) (f : A -> M B) : M B :=
  fun ls =>
    match m ls with
    | (Ok a, ls1, t1) =>
        match f a ls1 with
        | (r, ls2, t2) => (r, ls2, t1 ++ t2)
        end
    | (Err e, ls1, t1) => (Err e, ls1, t1)
    end.

Definition emit (e : Event) : M unit := fun ls => (Ok tt, ls, [e]).

Definition getStorage : M LocalStorage := fun ls => (Ok ls, ls, []).

Definition setStorage (ls : LocalStorage) : M unit := fun _ => (Ok tt, ls, []).

(** [await] of a promise that is already settled. *)
Definition await {A} (r : Res A) : M A :=
  match r with
  | Ok a => ret a
  | Err e => throw e
  end.

Declare Scope sync_scope.
Delimit Scope sync_scope with sync.
Notation "x <- m ;; k" := (bind m (fun x => k))
  (at level 100, m at next level, right associativity) : sync_scope.
Notation "m ;; k" := (bind m (fun _ => k))
  (at level 100, right associativity) : sync_scope.
Open Scope sync_scope.

Definition resultOf {A} (x : Res A * LocalStorage * list Event) : Res A := fst (fst x).
Definition storageOf {A} (x : Res A * LocalStorage * list Event) : LocalStorage := snd (fst x).
Definition traceOf {A} (x : Res A * LocalStorage * list Event) : list Event := snd x.

(** ** The service *)

Definition dbxLog (m : DbxLog) : M unit := emit (EvLog m).

(** A JavaScript value is falsy: the empty string stands for every missing
    revision. *)
Definition truthy (s : string) : bool := negb (s =? "")%string.

(** *** LS HELPER *)

Definition _getLocalRev : M (option string) :=
  emit EvGetLocalRev ;;
  ls <- getStorage ;;
  ret (LS_DROPBOX_LAST_LOCAL_REVISION ls).

Definition _setLocalRev (rev : string) : M unit :=
  if negb (truthy rev) then throw NoRevGiven
  else
    ls <- getStorage ;;
    emit (EvSetLocalRev rev) ;;
    setStorage (mkLs (Some rev) (LS_DROPBOX_LOCAL_LAST_SYNC ls)
                     (LS_DROPBOX_LOCAL_LAST_SYNC_CHECK ls)).

(** [isNaN(it) ? 0 : it], for [it = +localStorage.getItem(..)]. *)
Definition orZero (it : option Z) : Z :=
  match it with
  | Some n => n
  | None => 0
  end.
Arguments orZero : simpl never.

Definition lastSyncOf (ls : LocalStorage) : Z := orZero (LS_DROPBOX_LOCAL_LAST_SYNC ls).

Definition _getLocalLastSync : M Z :=
  emit EvGetLocalLastSync ;;
  ls <- getStorage ;;
  ret (lastSyncOf ls).

(** Here [localLastSync] is a number, so the test
    [typeof localLastSync !== 'number'] fails and the item is written;
    [Nullable._setLocalLastSync] below has the test and its [throw] for the
    values that are not numbers. *)
Definition _setLocalLastSync (localLastSync : Z) : M unit :=
  ls <- getStorage ;;
  emit (EvSetLocalLastSync localLastSync) ;;
  setStorage (mkLs (LS_DROPBOX_LAST_LOCAL_REVISION ls) (Some localLastSync)
                   (LS_DROPBOX_LOCAL_LAST_SYNC_CHECK ls)).

Definition _updateLocalLastSyncCheck (env : Env) : M unit :=
  ls <- getStorage ;;
  emit (EvSetLocalLastSyncCheck (now env)) ;;
  setStorage (mkLs (LS_DROPBOX_LAST_LOCAL_REVISION ls) (LS_DROPBOX_LOCAL_LAST_SYNC ls)
                   (Some (now env))).

(** *** Collaborators *)

(** The value of the callback given to [tap] in [_isReadyForRequests$]:
    [!isReady && new Error('Dropbox Sync not ready')]. *)
Inductive TapValue :=
| TapFalse
| TapError (message : string).

Definition readyTap (isReady : bool) : TapValue :=
  if negb isReady then TapError "Dropbox Sync not ready" else TapFalse.

(** [tap] runs the callback for its effects, drops its value and passes the
    element on. *)
Definition tap {A B} (f : A -> B) (a : A) : M A :=
  let _ := f a in ret a.

(** [this.isEnabledAndReady$.pipe(tap(..), first()).toPromise()] *)
Definition _isReadyForRequests (env : Env) : M bool :=
  isReady <- tap readyTap (isEnabledAndReady env) ;;
  emit (EvReady isReady) ;;
  ret isReady.

Definition _getRevAndLastClientUpdate (env : Env) : M (string * Z) :=
  emit (EvGetMetaData (getMetaData env)) ;;
  r <- await (getMetaData env) ;;
  ret (rev r, client_modified r).

Definition _downloadAppData (env : Env) : M (DropboxFileMetadata * AppDataComplete) :=
  localRev <- _getLocalRev ;;
  emit (EvDownload localRev (download env)) ;;
  await (download env).

Definition _uploadAppData (env : Env) (data : AppDataComplete) : M DropboxFileMetadata :=
  emit (EvUpload data (lastLocalSyncModelChange data)
                 (upload env data (lastLocalSyncModelChange data))) ;;
  r <- await (upload env data (lastLocalSyncModelChange data)) ;;
  _setLocalRev (rev r) ;;
  _setLocalLastSync (lastLocalSyncModelChange data) ;;
  dbxLog DBX_Uploaded ;;
  ret r.

Definition _importData (env : Env) (data : option AppDataComplete) (rev' : string) : M unit :=
  dr <- match data with
        | None =>
            r <- _downloadAppData env ;;
            ret (snd r, rev (fst r))
        | Some d => ret (d, rev')
        end ;;
  let data := fst dr in
  let rev' := snd dr in
  if negb (truthy rev') then throw NoRevGiven
  else
    emit (EvImport data (importCompleteSyncData env data)) ;;
    await (importCompleteSyncData env data) ;;
    _setLocalRev rev' ;;
    _setLocalLastSync (lastLocalSyncModelChange data) ;;
    dbxLog DBX_Imported.

Definition readInMemory (env : Env) : M AppDataComplete :=
  emit EvInMemory ;;
  ret (inMemory env).

Definition _openConflictDialog (env : Env) (p : SyncPoint) : M (option string) :=
  emit (EvDialog p (dialogAfterClosed env)) ;;
  ret (dialogAfterClosed env).

(** *** Comparisons of [sync] *)

Definition Qlt_bool (a b : Q) : bool := negb (Qle_bool b a).

(** [clientUpdate / 1000] *)
Definition remoteClientUpdateOf (clientUpdate : Z) : Q := Qmake clientUpdate 1000.

(** The condition of the second pre-check (lines 91 to 95):
    [Math.floor(local / 1000) > remoteClientUpdate
     && remoteClientUpdate === Math.floor(lastSync / 1000)
     && lastSync < local]. *)
Definition pre2Condition (localChange clientUpdate lastSync : Z) : bool :=
  let remoteClientUpdate := remoteClientUpdateOf clientUpdate in
  Qlt_bool remoteClientUpdate (inject_Z (localChange / 1000))
  && Qeq_bool remoteClientUpdate (inject_Z (lastSync / 1000))
  && (lastSync <? localChange).

Definition sameRev (rev : string) (localRev : option string) : bool :=
  match localRev with
  | Some l => (rev =? l)%string
  | None => false
  end.

Definition isAnswer (dr : option string) (s : string) : bool :=
  match dr with
  | Some a => (a =? s)%string
  | None => false
  end.

(** *** [sync] *)

Definition sync (env : Env) : M (option DropboxFileMetadata) :=
  _isReadyForRequests env ;;
  _updateLocalLastSyncCheck env ;;
  rc <- _getRevAndLastClientUpdate env ;;
  let rev' := fst rc in
  let clientUpdate := snd rc in
  lastSync <- _getLocalLastSync ;;
  localRev <- _getLocalRev ;;
  (* [None]: the attempt returned inside the first pre-check *)
  pre1 <- (if sameRev rev' localRev then
             dbxLog PRE1_SameRev ;;
             local <- readInMemory env ;;
             if lastSync =? lastLocalSyncModelChange local then
               dbxLog PRE1_NoLocalChanges ;;
               ret None
             else ret (Some (Some local))
           else ret (Some None)) ;;
  match pre1 with
  | None => ret None
  | Some local0 =>
      local <- match local0 with
               | Some l => ret l
               | None => readInMemory env
               end ;;
      if pre2Condition (lastLocalSyncModelChange local) clientUpdate lastSync then
        dbxLog PRE2_UpdateRemote ;;
        r <- _uploadAppData env local ;;
        ret (Some r)
      else
        r <- _downloadAppData env ;;
        let remote := snd r in
        let p := mkSyncPoint (lastLocalSyncModelChange local) lastSync
                             (lastLocalSyncModelChange remote) in
        match checkForUpdate p with
        | InSync =>
            dbxLog DBX_InSync ;;
            ret None
        | LocalUpdateRequired =>
            dbxLog DBX_UpdateLocal ;;
            _importData env (Some remote) (rev (fst r)) ;;
            ret None
        | RemoteUpdateRequired =>
            dbxLog DBX_UpdateRemote ;;
            r' <- _uploadAppData env local ;;
            ret (Some r')
        | DataDiverged =>
            dbxLog DBX_Separator ;;
            dbxLog DBX_DivergedData ;;
            dr <- _openConflictDialog env p ;;
            if isAnswer dr "REMOTE" then
              dbxLog Dialog_RemoteUpdate ;;
              r' <- _uploadAppData env local ;;
              ret (Some r')
            else if isAnswer dr "LOCAL" then
              dbxLog Dialog_UpdateLocal ;;
              _importData env (Some remote) (rev (fst r)) ;;
              ret None
            else ret None
        | LastSyncNotUpToDate =>
            _setLocalLastSync (lastLocalSyncModelChange local) ;;
            ret None
        end
  end.

(** ** Reading a trace *)

Scheme Boolean Equality for DbxLog.

Definition isLog (m : DbxLog) (e : Event) : bool :=
  match e with
  | EvLog m' => DbxLog_beq m m'
  | _ => false
  end.

Definition logged (m : DbxLog) (t : list Event) : bool := existsb (isLog m) t.

Definition isDownload (e : Event) : bool :=
  match e with EvDownload _ _ => true | _ => false end.

Definition isUpload (e : Event) : bool :=
  match e with EvUpload _ _ _ => true | _ => false end.

Definition isImport (e : Event) : bool :=
  match e with EvImport _ _ => true | _ => false end.

Definition isMetaData (e : Event) : bool :=
  match e with EvGetMetaData _ => true | _ => false end.

Definition isDialog (e : Event) : bool :=
  match e with EvDialog _ _ => true | _ => false end.

(** A transfer of a snapshot, in either direction, or its import. *)
Definition isTransfer (e : Event) : bool :=
  isDownload e || isUpload e || isImport e.

(** Writes of the revision token and of the last-sync time. *)
Definition isRevWrite (e : Event) : bool :=
  match e with EvSetLocalRev _ => true | _ => false end.

Definition isLastSyncWrite (e : Event) : bool :=
  match e with EvSetLocalLastSync _ => true | _ => false end.

Definition isBookkeepingWrite (e : Event) : bool :=
  isRevWrite e || isLastSyncWrite e.

Definition none (f : Event -> bool) (t : list Event) : bool :=
  forallb (fun e => negb (f e)) t.

(** ** The second pre-check, as the specification words it

    The local marker is truncated before the equality test and is compared
    raw in the ordering tests. *)
Definition pre2Condition_rawOrdering (localChange clientUpdate lastSync : Z) : bool :=
  let remoteClientUpdate := remoteClientUpdateOf clientUpdate in
  Qlt_bool remoteClientUpdate (Qmake localChange 1000)
  && Qeq_bool remoteClientUpdate (inject_Z (lastSync / 1000))
  && (lastSync <? localChange).

(** The attempt stops in the first pre-check. *)
Definition pre1Stops (env : Env) (ls : LocalStorage) (m : DropboxFileMetadata) : bool :=
  sameRev (rev m) (LS_DROPBOX_LAST_LOCAL_REVISION ls)
  && (lastSyncOf ls =? lastLocalSyncModelChange (inMemory env)).

(** The sync point [sync] hands to [checkForUpdate]. *)
Definition syncPointOf (env : Env) (ls : LocalStorage) (remoteData : AppDataComplete) : SyncPoint :=
  mkSyncPoint (lastLocalSyncModelChange (inMemory env)) (lastSyncOf ls)
              (lastLocalSyncModelChange remoteData).

(** Two environments answer alike, whatever their clocks show. *)
Definition sameAnswers (env env' : Env) : Prop :=
  getMetaData env' = getMetaData env
  /\ inMemory env' = inMemory env
  /\ download env' = download env
  /\ dialogAfterClosed env' = dialogAfterClosed env.

(** ** Two attempts in a row

    Modelled from the spec: the remote store, the data store and the
    arbiter are collaborators outside the sources (section 6).  The remote
    store keeps one file with its revision token; an upload replaces the
    file and its token, and reports the modified time in whole seconds; an
    import replaces the snapshot in memory.  Nothing else changes them. *)
Record World := mkWorld {
  storage : LocalStorage;
  remoteMeta : DropboxFileMetadata;
  remoteData : AppDataComplete;
  memory : AppDataComplete
}.

(** What may differ from one attempt to the next without any change of
    data: readiness, the clock, whether the calls get through, the token the
    store assigns to an upload ([None]: the upload fails), and the arbiter's
    answer. *)
Record Conditions := mkConditions {
  ready : bool;
  clock : Z;
  metaDataOk : bool;
  downloadOk : bool;
  uploadRev : option string;
  importOk : bool;
  answer : option string
}.

Definition envOf (c : Conditions) (w : World) : Env :=
  mkEnv (ready c) (clock c)
        (if metaDataOk c then Ok (remoteMeta w) else Err TransportError)
        (memory w)
        (if downloadOk c then Ok (remoteMeta w, remoteData w) else Err TransportError)
        (fun data clientModified =>
           match uploadRev c with
           | Some r => Ok (mkMeta r (1000 * (clientModified / 1000)))
           | None => Err TransportError
           end)
        (fun _ => if importOk c then Ok tt else Err ImportError)
        (answer c).

Definition applyEvent (w : World) (e : Event) : World :=
  match e with
  | EvUpload data _ (Ok m) => mkWorld (storage w) m data (memory w)
  | EvImport data (Ok _) => mkWorld (storage w) (remoteMeta w) (remoteData w) data
  | _ => w
  end.

(** One attempt in world [w], and the world it leaves behind. *)
Definition attempt (c : Conditions) (w : World)
  : Res (option DropboxFileMetadata) * list Event * World :=
  let x := sync (envOf c w) (storage w) in
  (resultOf x, traceOf x,
   fold_left applyEvent (traceOf x)
             (mkWorld (storageOf x) (remoteMeta w) (remoteData w) (memory w))).

(** The first attempt ended in the first pre-check, or by an upload or an
    import that was carried through. *)
Definition settled (t : list Event) : bool :=
  logged PRE1_NoLocalChanges t || logged DBX_Uploaded t || logged DBX_Imported t.

(** ** Traces of the paths of [sync] *)

(** The events every attempt starts with, up to the reads of the
    bookkeeping. *)
Definition preamble (env : Env) : list Event :=
  [EvReady (isEnabledAndReady env); EvSetLocalLastSyncCheck (now env);
   EvGetMetaData (getMetaData env); EvGetLocalLastSync; EvGetLocalRev].

(** The storage once the attempt has been marked as observed. *)
Definition checked (env : Env) (ls : LocalStorage) : LocalStorage :=
  mkLs (LS_DROPBOX_LAST_LOCAL_REVISION ls) (LS_DROPBOX_LOCAL_LAST_SYNC ls) (Some (now env)).

(** The events of the general path up to the decision. *)
Definition generalPath (env : Env) (ls : LocalStorage) (m : DropboxFileMetadata) : list Event :=
  preamble env
  ++ (if sameRev (rev m) (LS_DROPBOX_LAST_LOCAL_REVISION ls) then [EvLog PRE1_SameRev] else [])
  ++ [EvInMemory; EvGetLocalRev;
      EvDownload (LS_DROPBOX_LAST_LOCAL_REVISION ls) (download env)].

(** ** Scenarios *)

Definition snapshot (changed : Z) : AppDataComplete := mkAppData changed "tasks".

(** The remote file has token [remoteRev], modified time [clientModified]
    and holds a snapshot changed at [remoteChange]; the snapshot in memory was
    changed at [localChange]; every call gets through and an upload is given
    the token ["rev-up"]. *)
Definition scenario (isReady : bool) (remoteRev : string)
    (clientModified localChange remoteChange : Z) (dialog : option string) : Env :=
  mkEnv isReady 5000
        (Ok (mkMeta remoteRev clientModified))
        (snapshot localChange)
        (Ok (mkMeta remoteRev clientModified, snapshot remoteChange))
        (fun _ clientModified' => Ok (mkMeta "rev-up" (1000 * (clientModified' / 1000))))
        (fun _ => Ok tt)
        dialog.

Definition bookkeeping (localRev : option string) (lastSync : Z) : LocalStorage :=
  mkLs localRev (Some lastSync) None.

(** The same, as a world and the conditions of an attempt. *)
Definition scenarioWorld (localRev : option string) (lastSync : Z) (remoteRev : string)
    (clientModified localChange remoteChange : Z) : World :=
  mkWorld (bookkeeping localRev lastSync) (mkMeta remoteRev clientModified)
          (snapshot remoteChange) (snapshot localChange).

Definition fair (dialog : option string) : Conditions :=
  mkConditions true 5000 true true (Some "rev-up") true dialog.

(** ** Further notions the statements use *)

(** The environment [env] with another first value of [isEnabledAndReady$]. *)
Definition withReady (isReady : bool) (env : Env) : Env :=
  mkEnv isReady (now env) (getMetaData env) (inMemory env) (download env)
        (upload env) (importCompleteSyncData env) (dialogAfterClosed env).

(** The token [_importData] has once its first test is passed: the one handed
    in with the data, or else the one that comes with the download; the empty
    string when the download fails. *)
Definition resolvedRev (env : Env) (data : option AppDataComplete) (rev' : string) : string :=
  match data with
  | Some _ => rev'
  | None =>
      match download env with
      | Ok r => rev (fst r)
      | Err _ => ""
      end
  end.

(** The attempt found both sides in sync, in the first pre-check or by the
    decision. *)
Definition inSyncRun (t : list Event) : bool :=
  logged PRE1_NoLocalChanges t || logged DBX_InSync t.

Definition worldAfter (a : Res (option DropboxFileMetadata) * list Event * World) : World :=
  snd a.

Definition eventsOf (a : Res (option DropboxFileMetadata) * list Event * World) : list Event :=
  snd (fst a).

Definition outcomeOf (a : Res (option DropboxFileMetadata) * list Event * World)
  : Res (option DropboxFileMetadata) :=
  fst (fst a).

(** ** Counting effects *)

Definition countOf (f : Event -> bool) (t : list Event) : nat := List.length (filter f t).

Definition isInMemory (e : Event) : bool :=
  match e with EvInMemory => true | _ => false end.

Definition isLastSyncCheckWrite (e : Event) : bool :=
  match e with EvSetLocalLastSyncCheck _ => true | _ => false end.

(** ** The observables of the service

    A stream is the list of the values it has emitted so far.  [x'] stands
    for the observable [x$] of the service. *)

(** [distinctUntilChanged()]: a value passes unless it is the one that passed
    last. *)
Fixpoint distinctAfter {A} (eqb : A -> A -> bool) (prev : A) (s : list A) : list A :=
  match s with
  | [] => []
  | x :: s' =>
      if eqb prev x then distinctAfter eqb prev s'
      else x :: distinctAfter eqb x s'
  end.

Definition distinctUntilChanged {A} (eqb : A -> A -> bool) (s : list A) : list A :=
  match s with
  | [] => []
  | x :: s' => x :: distinctAfter eqb x s'
  end.

(** [===] on a boolean or [undefined]. *)
Definition strictEqBool (a b : option bool) : bool :=
  match a, b with
  | Some x, Some y => Bool.eqb x y
  | None, None => true
  | _, _ => false
  end.

(** [([isTokenAvailable, isEnabled]) => isTokenAvailable && isEnabled] *)
Definition readyOf (latest : bool * option bool) : option bool :=
  if fst latest then snd latest else Some false.

(** [isEnabledAndReady$], from the pairs [combineLatest] emits once all data
    is loaded. *)
Definition isEnabledAndReady' (latest' : list (bool * option bool)) : list (option bool) :=
  distinctUntilChanged strictEqBool (map readyOf latest').

(** Truthiness of a boolean or [undefined]. *)
Definition truthyBool (v : option bool) : bool :=
  match v with
  | Some b => b
  | None => false
  end.

(** [_isReadyForRequests$]: [tap] lets every value pass and [first()] takes
    the first; [None] while nothing was emitted. *)
Definition _isReadyForRequests' (latest' : list (bool * option bool)) : option (option bool) :=
  hd_error (map (fun isReady => let _ := readyTap (truthyBool isReady) in isReady)
                (isEnabledAndReady' latest')).

(** No value of the stream is the one emitted right before it. *)
Fixpoint noRepeats {A} (eqb : A -> A -> bool) (s : list A) : bool :=
  match s with
  | x :: (y :: _) as s' => negb (eqb x y) && noRepeats eqb s'
  | _ => true
  end.

(** Conditions under which one call does not get through, or the store
    answers an upload without a token. *)
Definition noMetaData : Conditions :=
  mkConditions true 5000 false true (Some "rev-up") true None.

Definition noDownload : Conditions :=
  mkConditions true 5000 true false (Some "rev-up") true None.

Definition emptyUploadRev : Conditions :=
  mkConditions true 5000 true true (Some "") true None.

(** * Change times that are not numbers

    The service is compiled without null checks ([_getLocalRev(): string]
    hands on what [getItem] returns, [null] included), so a field typed
    [number] may hold [undefined] or [null].  Above, every change time is a
    number; [Nullable] embeds the same functions over snapshots whose
    [lastLocalSyncModelChange] may be [undefined] or [null], with the test
    [typeof localLastSync !== 'number'] of [_setLocalLastSync] and its error.
    On snapshots whose change times are numbers the two agree
    ([Nullable_sync_agrees] below). *)

(** What a field typed [number] holds. *)
Inductive JsNumber :=
| Num (n : Z)
| Undefined
| Null.

(** [ToNumber], which the operators [/], [<] and [>] apply to their
    operands: [null] is 0 and [undefined] is [NaN] ([None]). *)
Definition toNumber (x : JsNumber) : option Z :=
  match x with
  | Num n => Some n
  | Null => Some 0
  | Undefined => None
  end.

(** [typeof x === 'number'] *)
Definition isNumber (x : JsNumber) : bool :=
  match x with
  | Num _ => true
  | _ => false
  end.

(** [x == s] for a number [s]: neither [undefined] nor [null] equals a
    number. *)
Definition eqNumber (x : JsNumber) (s : Z) : bool :=
  match x with
  | Num n => n =? s
  | _ => false
  end.

(** [s === x] for a number [s]. *)
Definition strictEqual (s : Z) (x : JsNumber) : bool :=
  match x with
  | Num n => s =? n
  | _ => false
  end.

(** [x > s] and [s < x] for a number [s]; a comparison with [NaN] is false. *)
Definition gtNumber (x : JsNumber) (s : Z) : bool :=
  match toNumber x with
  | Some n => n >? s
  | None => false
  end.

Module Nullable.

Record AppDataComplete := mkAppData {
  lastLocalSyncModelChange : JsNumber;
  appData : string
}.

Record SyncPoint := mkSyncPoint {
  local : JsNumber;
  lastSync : Z;
  remote : JsNumber
}.

(** Modelled from the spec: the decision table of section 4.2, as in
    [checkForUpdate] above, with its comparisons read as JavaScript's when a
    change time is not a number. *)
Definition checkForUpdate (p : SyncPoint) : UpdateCheckResult :=
  if eqNumber (remote p) (lastSync p) && eqNumber (local p) (lastSync p) then InSync
  else if eqNumber (remote p) (lastSync p) && gtNumber (local p) (lastSync p)
       then RemoteUpdateRequired
  else if eqNumber (local p) (lastSync p) && gtNumber (remote p) (lastSync p)
       then LocalUpdateRequired
  else if gtNumber (remote p) (lastSync p) && gtNumber (local p) (lastSync p)
       then DataDiverged
  else LastSyncNotUpToDate.
Arguments checkForUpdate : simpl never.

Inductive SyncError :=
| TransportError           (* a rejected promise of DropboxApiService *)
| ImportError              (* a rejected promise of DataImportService *)
| NoRevGiven               (* Error('No rev given') *)
| NoCorrectLocalLastSync.  (* Error('No correct localLastSync given') *)

Inductive Res (A : Type) :=
| Ok (a : A)
| Err (e : SyncError).
Arguments Ok {A} a.
Arguments Err {A} e.

Inductive Event :=
| EvReady (isReady : bool)
| EvGetLocalRev
| EvGetLocalLastSync
| EvSetLocalRev (r : string)
| EvSetLocalLastSync (t : Z)
| EvSetLocalLastSyncCheck (t : Z)
| EvGetMetaData (res : Res DropboxFileMetadata)
| EvInMemory
| EvDownload (localRev : option string) (res : Res (DropboxFileMetadata * AppDataComplete))
| EvUpload (data : AppDataComplete) (clientModified : JsNumber) (res : Res DropboxFileMetadata)
| EvImport (data : AppDataComplete) (res : Res unit)
| EvDialog (p : SyncPoint) (answer : option string)
| EvLog (m : DbxLog).

Record Env := mkEnv {
  isEnabledAndReady : bool;
  now : Z;
  getMetaData : Res DropboxFileMetadata;
  inMemory : AppDataComplete;
  download : Res (DropboxFileMetadata * AppDataComplete);
  upload : AppDataComplete -> JsNumber -> Res DropboxFileMetadata;
  importCompleteSyncData : AppDataComplete -> Res unit;
  dialogAfterClosed : option string
}.

(** *** The monad *)

Definition M (A : Type) : Type :=
  LocalStorage -> Res A * LocalStorage * list Event.

Definition ret {A} (a : A) : M A := fun ls => (Ok a, ls, []).

Definition throw {A} (e : SyncError) : M A := fun ls => (Err e, ls, []).

Definition bind {A B} (m : M A) (f : A -> M B) : M B :=
  fun ls =>
    match m ls with
    | (Ok a, ls1, t1) =>
        match f a ls1 with
        | (r, ls2, t2) => (r, ls2, t1 ++ t2)
        end
    | (Err e, ls1, t1) => (Err e, ls1, t1)
    end.

Definition emit (e : Event) : M unit := fun ls => (Ok tt, ls, [e]).

Definition getStorage : M LocalStorage := fun ls => (Ok ls, ls, []).

Definition setStorage (ls : LocalStorage) : M unit := fun _ => (Ok tt, ls, []).

Definition await {A} (r : Res A) : M A :=
  match r with
  | Ok a => ret a
  | Err e => throw e
  end.

Declare Scope nullable_scope.
Notation "x <- m ;; k" := (bind m (fun x => k))
  (at level 100, m at next level, right associativity) : nullable_scope.
Notation "m ;; k" := (bind m (fun _ => k))
  (at level 100, right associativity) : nullable_scope.
Local Open Scope nullable_scope.

Definition resultOf {A} (x : Res A * LocalStorage * list Event) : Res A := fst (fst x).
Definition storageOf {A} (x : Res A * LocalStorage * list Event) : LocalStorage := snd (fst x).
Definition traceOf {A} (x : Res A * LocalStorage * list Event) : list Event := snd x.

(** *** The service *)

Definition dbxLog (m : DbxLog) : M unit := emit (EvLog m).

Definition _getLocalRev : M (option string) :=
  emit EvGetLocalRev ;;
  ls <- getStorage ;;
  ret (LS_DROPBOX_LAST_LOCAL_REVISION ls).

Definition _setLocalRev (rev : string) : M unit :=
  if negb (truthy rev) then throw NoRevGiven
  else
    ls <- getStorage ;;
    emit (EvSetLocalRev rev) ;;
    setStorage (mkLs (Some rev) (LS_DROPBOX_LOCAL_LAST_SYNC ls)
                     (LS_DROPBOX_LOCAL_LAST_SYNC_CHECK ls)).

Definition _getLocalLastSync : M Z :=
  emit EvGetLocalLastSync ;;
  ls <- getStorage ;;
  ret (lastSyncOf ls).

Definition _setLocalLastSync (localLastSync : JsNumber) : M unit :=
  match localLastSync with
  | Num n =>
      ls <- getStorage ;;
      emit (EvSetLocalLastSync n) ;;
      setStorage (mkLs (LS_DROPBOX_LAST_LOCAL_REVISION ls) (Some n)
                       (LS_DROPBOX_LOCAL_LAST_SYNC_CHECK ls))
  | _ => throw NoCorrectLocalLastSync
  end.

Definition _updateLocalLastSyncCheck (env : Env) : M unit :=
  ls <- getStorage ;;
  emit (EvSetLocalLastSyncCheck (now env)) ;;
  setStorage (mkLs (LS_DROPBOX_LAST_LOCAL_REVISION ls) (LS_DROPBOX_LOCAL_LAST_SYNC ls)
                   (Some (now env))).

Definition tap {A B} (f : A -> B) (a : A) : M A :=
  let _ := f a in ret a.

Definition _isReadyForRequests (env : Env) : M bool :=
  isReady <- tap readyTap (isEnabledAndReady env) ;;
  emit (EvReady isReady) ;;
  ret isReady.

Definition _getRevAndLastClientUpdate (env : Env) : M (string * Z) :=
  emit (EvGetMetaData (getMetaData env)) ;;
  r <- await (getMetaData env) ;;
  ret (rev r, client_modified r).

Definition _downloadAppData (env : Env) : M (DropboxFileMetadata * AppDataComplete) :=
  localRev <- _getLocalRev ;;
  emit (EvDownload localRev (download env)) ;;
  await (download env).

Definition _uploadAppData (env : Env) (data : AppDataComplete) : M DropboxFileMetadata :=
  emit (EvUpload data (lastLocalSyncModelChange data)
                 (upload env data (lastLocalSyncModelChange data))) ;;
  r <- await (upload env data (lastLocalSyncModelChange data)) ;;
  _setLocalRev (rev r) ;;
  _setLocalLastSync (lastLocalSyncModelChange data) ;;
  dbxLog DBX_Uploaded ;;
  ret r.

Definition _importData (env : Env) (data : option AppDataComplete) (rev' : string) : M unit :=
  dr <- match data with
        | None =>
            r <- _downloadAppData env ;;
            ret (snd r, rev (fst r))
        | Some d => ret (d, rev')
        end ;;
  let data := fst dr in
  let rev' := snd dr in
  if negb (truthy rev') then throw NoRevGiven
  else
    emit (EvImport data (importCompleteSyncData env data)) ;;
    await (importCompleteSyncData env data) ;;
    _setLocalRev rev' ;;
    _setLocalLastSync (lastLocalSyncModelChange data) ;;
    dbxLog DBX_Imported.

Definition readInMemory (env : Env) : M AppDataComplete :=
  emit EvInMemory ;;
  ret (inMemory env).

Definition _openConflictDialog (env : Env) (p : SyncPoint) : M (option string) :=
  emit (EvDialog p (dialogAfterClosed env)) ;;
  ret (dialogAfterClosed env).

(** The condition of the second pre-check (lines 91 to 95); with
    [undefined] the first comparison is one with [NaN]. *)
Definition pre2Condition (localChange : JsNumber) (clientUpdate lastSync : Z) : bool :=
  let remoteClientUpdate := remoteClientUpdateOf clientUpdate in
  match toNumber localChange with
  | Some l =>
      Qlt_bool remoteClientUpdate (inject_Z (l / 1000))
      && Qeq_bool remoteClientUpdate (inject_Z (lastSync / 1000))
      && (lastSync <? l)
  | None => false
  end.
Arguments pre2Condition : simpl never.

Definition sync (env : Env) : M (option DropboxFileMetadata) :=
  _isReadyForRequests env ;;
  _updateLocalLastSyncCheck env ;;
  rc <- _getRevAndLastClientUpdate env ;;
  let rev' := fst rc in
  let clientUpdate := snd rc in
  lastSync <- _getLocalLastSync ;;
  localRev <- _getLocalRev ;;
  pre1 <- (if sameRev rev' localRev then
             dbxLog PRE1_SameRev ;;
             local <- readInMemory env ;;
             if strictEqual lastSync (lastLocalSyncModelChange local) then
               dbxLog PRE1_NoLocalChanges ;;
               ret None
             else ret (Some (Some local))
           else ret (Some None)) ;;
  match pre1 with
  | None => ret None
  | Some local0 =>
      local <- match local0 with
               | Some l => ret l
               | None => readInMemory env
               end ;;
      if pre2Condition (lastLocalSyncModelChange local) clientUpdate lastSync then
        dbxLog PRE2_UpdateRemote ;;
        r <- _uploadAppData env local ;;
        ret (Some r)
      else
        r <- _downloadAppData env ;;
        let remote := snd r in
        let p := mkSyncPoint (lastLocalSyncModelChange local) lastSync
                             (lastLocalSyncModelChange remote) in
        match checkForUpdate p with
        | InSync =>
            dbxLog DBX_InSync ;;
            ret None
        | LocalUpdateRequired =>
            dbxLog DBX_UpdateLocal ;;
            _importData env (Some remote) (rev (fst r)) ;;
            ret None
        | RemoteUpdateRequired =>
            dbxLog DBX_UpdateRemote ;;
            r' <- _uploadAppData env local ;;
            ret (Some r')
        | DataDiverged =>
            dbxLog DBX_Separator ;;
            dbxLog DBX_DivergedData ;;
            dr <- _openConflictDialog env p ;;
            if isAnswer dr "REMOTE" then
              dbxLog Dialog_RemoteUpdate ;;
              r' <- _uploadAppData env local ;;
              ret (Some r')
            else if isAnswer dr "LOCAL" then
              dbxLog Dialog_UpdateLocal ;;
              _importData env (Some remote) (rev (fst r)) ;;
              ret None
            else ret None
        | LastSyncNotUpToDate =>
            _setLocalLastSync (lastLocalSyncModelChange local) ;;
            ret None
        end
  end.

(** *** Reading a trace *)

Definition isDownload (e : Event) : bool :=
  match e with EvDownload _ _ => true | _ => false end.

Definition isUpload (e : Event) : bool :=
  match e with EvUpload _ _ _ => true | _ => false end.

Definition isImport (e : Event) : bool :=
  match e with EvImport _ _ => true | _ => false end.

Definition isMetaData (e : Event) : bool :=
  match e with EvGetMetaData _ => true | _ => false end.

Definition isNetworkCall (e : Event) : bool :=
  isMetaData e || isDownload e || isUpload e.

Definition isTransfer (e : Event) : bool :=
  isDownload e || isUpload e || isImport e.

Definition isBookkeepingRead (e : Event) : bool :=
  match e with
  | EvGetLocalRev | EvGetLocalLastSync => true
  | _ => false
  end.

Definition isRevWrite (e : Event) : bool :=
  match e with EvSetLocalRev _ => true | _ => false end.

Definition isLastSyncWrite (e : Event) : bool :=
  match e with EvSetLocalLastSync _ => true | _ => false end.

Definition isBookkeepingWrite (e : Event) : bool :=
  isRevWrite e || isLastSyncWrite e.

Definition none (f : Event -> bool) (t : list Event) : bool :=
  forallb (fun e => negb (f e)) t.

(** No bookkeeping read comes after a network call. *)
Fixpoint readsBeforeNetwork (t : list Event) : bool :=
  match t with
  | [] => true
  | e :: t' =>
      if isNetworkCall e then none isBookkeepingRead t'
      else readsBeforeNetwork t'
  end.

(** Every bookkeeping read comes after the metadata fetch. *)
Fixpoint readsAfterMetaData (t : list Event) : bool :=
  match t with
  | [] => true
  | e :: t' =>
      if isMetaData e then true
      else negb (isBookkeepingRead e) && readsAfterMetaData t'
  end.

(** No bookkeeping read comes after a download, an upload or an import was
    issued. *)
Fixpoint readsBeforeTransfer (t : list Event) : bool :=
  match t with
  | [] => true
  | e :: t' =>
      if isTransfer e then none isBookkeepingRead t'
      else readsBeforeTransfer t'
  end.

(** The revision token and the last-sync time are written only after an
    upload or an import that succeeded; [applied] tells whether one has. *)
Fixpoint writesAfterApplied (applied : bool) (t : list Event) : bool :=
  match t with
  | [] => true
  | EvUpload _ _ (Ok _) :: t' => writesAfterApplied true t'
  | EvImport _ (Ok _) :: t' => writesAfterApplied true t'
  | EvSetLocalRev _ :: t' => applied && writesAfterApplied applied t'
  | EvSetLocalLastSync _ :: t' => applied && writesAfterApplied applied t'
  | _ :: t' => writesAfterApplied applied t'
  end.

(** *** Paths *)

Definition syncPointOf (env : Env) (ls : LocalStorage) (remoteData : AppDataComplete) : SyncPoint :=
  mkSyncPoint (lastLocalSyncModelChange (inMemory env)) (lastSyncOf ls)
              (lastLocalSyncModelChange remoteData).

Definition preamble (env : Env) : list Event :=
  [EvReady (isEnabledAndReady env); EvSetLocalLastSyncCheck (now env);
   EvGetMetaData (getMetaData env); EvGetLocalLastSync; EvGetLocalRev].

Definition checked (env : Env) (ls : LocalStorage) : LocalStorage :=
  mkLs (LS_DROPBOX_LAST_LOCAL_REVISION ls) (LS_DROPBOX_LOCAL_LAST_SYNC ls) (Some (now env)).

Definition generalPath (env : Env) (ls : LocalStorage) (m : DropboxFileMetadata) : list Event :=
  preamble env
  ++ (if sameRev (rev m) (LS_DROPBOX_LAST_LOCAL_REVISION ls) then [EvLog PRE1_SameRev] else [])
  ++ [EvInMemory; EvGetLocalRev;
      EvDownload (LS_DROPBOX_LAST_LOCAL_REVISION ls) (download env)].

(** The attempt is the repair of a stale sync point: the download got
    through, the decision is [LastSyncNotUpToDate], and the one write of the
    attempt sets the last-sync time to the local change time. *)
Definition staleRepair (env : Env) (ls : LocalStorage) (t : list Event) : Prop :=
  exists m r v,
    getMetaData env = Ok m
    /\ download env = Ok r
    /\ checkForUpdate (syncPointOf env ls (snd r)) = LastSyncNotUpToDate
    /\ lastLocalSyncModelChange (inMemory env) = Num v
    /\ t = generalPath env ls m ++ [EvSetLocalLastSync v].

(** The token and the snapshot [_importData] has once its first test is
    passed. *)
Definition resolvedRev (env : Env) (data : option AppDataComplete) (rev' : string) : string :=
  match data with
  | Some _ => rev'
  | None =>
      match download env with
      | Ok r => rev (fst r)
      | Err _ => ""
      end
  end.

Definition resolvedData (env : Env) (data : option AppDataComplete) : option AppDataComplete :=
  match data with
  | Some d => Some d
  | None =>
      match download env with
      | Ok r => Some (snd r)
      | Err _ => None
      end
  end.

(** The error [e] is one a collaborator answered with during the attempt,
    the missing revision of an upload or a download that got through, or the
    refusal of a change time that is not a number. *)
Definition errorFrom (env : Env) (e : SyncError) : Prop :=
  getMetaData env = Err e
  \/ download env = Err e
  \/ upload env (inMemory env) (lastLocalSyncModelChange (inMemory env)) = Err e
  \/ (exists r, download env = Ok r /\ importCompleteSyncData env (snd r) = Err e)
  \/ (e = NoRevGiven
      /\ ((exists m, upload env (inMemory env) (lastLocalSyncModelChange (inMemory env)) = Ok m
                     /\ truthy (rev m) = false)
          \/ (exists r, download env = Ok r /\ truthy (rev (fst r)) = false)))
  \/ (e = NoCorrectLocalLastSync
      /\ (isNumber (lastLocalSyncModelChange (inMemory env)) = false
          \/ (exists r, download env = Ok r
                        /\ isNumber (lastLocalSyncModelChange (snd r)) = false))).

(** *** Scenarios *)

Definition snapshot (changed : JsNumber) : AppDataComplete := mkAppData changed "tasks".

Definition scenario (isReady : bool) (remoteRev : string) (clientModified : Z)
    (localChange remoteChange : JsNumber) (dialog : option string) : Env :=
  mkEnv isReady 5000
        (Ok (mkMeta remoteRev clientModified))
        (snapshot localChange)
        (Ok (mkMeta remoteRev clientModified, snapshot remoteChange))
        (fun _ clientModified' =>
           Ok (mkMeta "rev-up" (1000 * (orZero (toNumber clientModified') / 1000))))
        (fun _ => Ok tt)
        dialog.

End Nullable.

(** ** From the numbers to the nullable change times *)

Definition liftData (d : AppDataComplete) : Nullable.AppDataComplete :=
  Nullable.mkAppData (Num (lastLocalSyncModelChange d)) (appData d).
Arguments liftData : simpl never.

Definition lowerData (d : Nullable.AppDataComplete) : AppDataComplete :=
  mkAppData (orZero (toNumber (Nullable.lastLocalSyncModelChange d))) (Nullable.appData d).
Arguments lowerData : simpl never.

Definition liftError (e : SyncError) : Nullable.SyncError :=
  match e with
  | TransportError => Nullable.TransportError
  | ImportError => Nullable.ImportError
  | NoRevGiven => Nullable.NoRevGiven
  end.

Definition liftRes {A B} (f : A -> B) (r : Res A) : Nullable.Res B :=
  match r with
  | Ok a => Nullable.Ok (f a)
  | Err e => Nullable.Err (liftError e)
  end.

Definition liftDownload (r : DropboxFileMetadata * AppDataComplete)
  : DropboxFileMetadata * Nullable.AppDataComplete :=
  (fst r, liftData (snd r)).

Definition liftPoint (p : SyncPoint) : Nullable.SyncPoint :=
  Nullable.mkSyncPoint (Num (local p)) (lastSync p) (Num (remote p)).

Definition liftEvent (e : Event) : Nullable.Event :=
  match e with
  | EvReady isReady => Nullable.EvReady isReady
  | EvGetLocalRev => Nullable.EvGetLocalRev
  | EvGetLocalLastSync => Nullable.EvGetLocalLastSync
  | EvSetLocalRev r => Nullable.EvSetLocalRev r
  | EvSetLocalLastSync t => Nullable.EvSetLocalLastSync t
  | EvSetLocalLastSyncCheck t => Nullable.EvSetLocalLastSyncCheck t
  | EvGetMetaData res => Nullable.EvGetMetaData (liftRes (fun m => m) res)
  | EvInMemory => Nullable.EvInMemory
  | EvDownload localRev res => Nullable.EvDownload localRev (liftRes liftDownload res)
  | EvUpload data clientModified res =>
      Nullable.EvUpload (liftData data) (Num clientModified) (liftRes (fun m => m) res)
  | EvImport data res => Nullable.EvImport (liftData data) (liftRes (fun u => u) res)
  | EvDialog p answer => Nullable.EvDialog (liftPoint p) answer
  | EvLog m => Nullable.EvLog m
  end.

(** The collaborators of [env], asked about snapshots whose change times
    are numbers. *)
Definition liftEnv (env : Env) : Nullable.Env :=
  Nullable.mkEnv
    (isEnabledAndReady env) (now env)
    (liftRes (fun m => m) (getMetaData env))
    (liftData (inMemory env))
    (liftRes liftDownload (download env))
    (fun data clientModified =>
       liftRes (fun m => m) (upload env (lowerData data) (orZero (toNumber clientModified))))
    (fun data => liftRes (fun u => u) (importCompleteSyncData env (lowerData data)))
    (dialogAfterClosed env).

(** ** The configuration streams *)

(** [DropboxSyncConfig]: the field [syncInterval$] reads; typed [number], it
    may hold [undefined] or [null] as well. *)
Record DropboxSyncConfig := mkDropboxSyncConfig {
  syncInterval : JsNumber
}.

(** What [cfg.dropboxSync] holds: the config object, [undefined] or
    [null]. *)
Inductive JsConfig :=
| Config (c : DropboxSyncConfig)
| NoConfig
| NullConfig.

Record GlobalConfig := mkGlobalConfig {
  dropboxSync : JsConfig
}.

(** [===] on what [syncInterval$] carries: a number equals the same number,
    [undefined] equals [undefined], [null] equals [null], and nothing
    else. *)
Definition strictEqNumber (a b : JsNumber) : bool :=
  match a, b with
  | Num x, Num y => x =? y
  | Undefined, Undefined => true
  | Null, Null => true
  | _, _ => false
  end.

(** [cfg$.pipe(map(cfg => cfg.dropboxSync))] *)
Definition dropboxCfg' (cfg' : list GlobalConfig) : list JsConfig :=
  map dropboxSync cfg'.

(** [cfg => cfg && cfg.syncInterval]: a config object is truthy, and
    [undefined] and [null] are handed on as they are. *)
Definition intervalOf (cfg : JsConfig) : JsNumber :=
  match cfg with
  | Config c => syncInterval c
  | NoConfig => Undefined
  | NullConfig => Null
  end.

Definition syncInterval' (cfg' : list GlobalConfig) : list JsNumber :=
  distinctUntilChanged strictEqNumber (map intervalOf (dropboxCfg' cfg')).

(** * Properties *)

(** ** Proof tools *)

Ltac unfold_sync :=
  unfold sync, _isReadyForRequests, tap, _updateLocalLastSyncCheck,
    _getRevAndLastClientUpdate, _getLocalLastSync, _getLocalRev, readInMemory,
    _downloadAppData, _uploadAppData, _importData, _openConflictDialog,
    _setLocalRev, _setLocalLastSync, dbxLog, bind, emit, ret, throw, await,
    getStorage, setStorage, resultOf, storageOf, traceOf, lastSyncOf.

(** Split on the next test the computation is stuck at. *)
Ltac split_test :=
  match goal with
  | |- context [match ?x with _ => _ end] =>
      lazymatch x with
      | context [match _ with _ => _ end] => fail
      | _ => destruct x eqn:?
      end
  | |- context [if ?x then _ else _] =>
      lazymatch x with
      | context [if _ then _ else _] => fail
      | _ => destruct x eqn:?
      end
  end.

Ltac run_sync := unfold_sync; cbn; repeat (split_test; cbn).

(** The same on an equation [E], with the goal left alone. *)
Ltac split_test_in E :=
  match type of E with
  | context [match ?x with _ => _ end] =>
      lazymatch x with
      | context [match _ with _ => _ end] => fail
      | _ => destruct x eqn:?
      end
  | context [if ?x then _ else _] =>
      lazymatch x with
      | context [if _ then _ else _] => fail
      | _ => destruct x eqn:?
      end
  end.

(** One goal for each way [sync env ls] can go, with the triple it yields
    in place of the call. *)
Ltac cases_of_sync env ls :=
  let x := fresh "x" in
  let E := fresh "E" in
  remember (sync env ls) as x eqn:E;
  unfold sync, _isReadyForRequests, tap, _updateLocalLastSyncCheck,
    _getRevAndLastClientUpdate, _getLocalLastSync, _getLocalRev, readInMemory,
    _downloadAppData, _uploadAppData, _importData, _openConflictDialog,
    _setLocalRev, _setLocalLastSync, dbxLog, bind, emit, ret, throw, await,
    getStorage, setStorage, lastSyncOf in E;
  cbn in E; repeat (split_test_in E; cbn in E); subst x.

(** Find the member of a list. *)
Ltac find_in :=
  repeat match goal with |- _ \/ _ => first [left; reflexivity | right] end.

(** Turn the tests on [truthy] around. *)
Ltac truthy_hyps :=
  repeat match goal with
    | H : negb _ = false |- _ => apply negb_false_iff in H
    | H : negb _ = true |- _ => apply negb_true_iff in H
    end.



(** The same for the service over change times that may not be numbers. *)
Ltac unfold_nsync :=
  unfold Nullable.sync, Nullable._isReadyForRequests, Nullable.tap,
    Nullable._updateLocalLastSyncCheck, Nullable._getRevAndLastClientUpdate,
    Nullable._getLocalLastSync, Nullable._getLocalRev, Nullable.readInMemory,
    Nullable._downloadAppData, Nullable._uploadAppData, Nullable._importData,
    Nullable._openConflictDialog, Nullable._setLocalRev, Nullable._setLocalLastSync,
    Nullable.dbxLog, Nullable.bind, Nullable.emit, Nullable.ret, Nullable.throw,
    Nullable.await, Nullable.getStorage, Nullable.setStorage, lastSyncOf.

Ltac cases_of_nsync env ls :=
  let x := fresh "x" in
  let E := fresh "E" in
  remember (Nullable.sync env ls) as x eqn:E;
  unfold Nullable.sync, Nullable._isReadyForRequests, Nullable.tap,
    Nullable._updateLocalLastSyncCheck, Nullable._getRevAndLastClientUpdate,
    Nullable._getLocalLastSync, Nullable._getLocalRev, Nullable.readInMemory,
    Nullable._downloadAppData, Nullable._uploadAppData, Nullable._importData,
    Nullable._openConflictDialog, Nullable._setLocalRev, Nullable._setLocalLastSync,
    Nullable.dbxLog, Nullable.bind, Nullable.emit, Nullable.ret, Nullable.throw,
    Nullable.await, Nullable.getStorage, Nullable.setStorage, lastSyncOf in E;
  cbn in E; repeat (split_test_in E; cbn in E); subst x.

Ltac unfold_nupload :=
  unfold Nullable._uploadAppData, Nullable._setLocalRev, Nullable._setLocalLastSync,
    Nullable.dbxLog, Nullable.bind, Nullable.emit, Nullable.ret, Nullable.throw,
    Nullable.await, Nullable.getStorage, Nullable.setStorage,
    Nullable.resultOf, Nullable.storageOf, Nullable.traceOf.

Ltac run_nimport :=
  unfold Nullable._importData, Nullable._downloadAppData, Nullable._getLocalRev,
    Nullable._setLocalRev, Nullable._setLocalLastSync,
    Nullable.dbxLog, Nullable.bind, Nullable.emit, Nullable.ret, Nullable.throw,
    Nullable.await, Nullable.getStorage, Nullable.setStorage,
    Nullable.resultOf, Nullable.storageOf, Nullable.traceOf,
    Nullable.resolvedRev, Nullable.resolvedData;
  cbn; repeat (split_test; cbn).

(** ** The clock policy of the second pre-check *)

Lemma pre2Condition_iff (l c s : Z) :
  pre2Condition l c s = true <-> c = 1000 * (s / 1000) /\ s / 1000 < l / 1000.
Proof.
  unfold pre2Condition, Qlt_bool, Qle_bool, Qeq_bool, remoteClientUpdateOf, inject_Z.
  cbn [Qnum Qden].
  rewrite !andb_true_iff, negb_true_iff, Z.leb_gt, Z.ltb_lt, Z.eqb_eq.
  split.
  - intros [[Hlt Heq] _]. split; lia.
  - intros [Heq Hlt]. repeat split; try lia.
    assert (1000 * (s / 1000) <= s < 1000 * (s / 1000) + 1000)
      by (pose proof (Z.mod_pos_bound s 1000); pose proof (Z.div_mod s 1000); lia).
    assert (1000 * (l / 1000) <= l)
      by (pose proof (Z.mod_pos_bound l 1000); pose proof (Z.div_mod l 1000); lia).
    lia.
Qed.

Lemma pre2Condition_rawOrdering_iff (l c s : Z) :
  pre2Condition_rawOrdering l c s = true <-> c = 1000 * (s / 1000) /\ c < l /\ s < l.
Proof.
  unfold pre2Condition_rawOrdering, Qlt_bool, Qle_bool, Qeq_bool,
    remoteClientUpdateOf, inject_Z.
  cbn [Qnum Qden].
  rewrite !andb_true_iff, negb_true_iff, Z.leb_gt, Z.ltb_lt, Z.eqb_eq.
  lia.
Qed.

Lemma pre2Condition_raw (l c s : Z) :
  pre2Condition l c s = true -> s < l /\ c < l.
Proof.
  intros [Hc Hlt]%pre2Condition_iff.
  pose proof (Z.mod_pos_bound s 1000). pose proof (Z.div_mod s 1000).
  pose proof (Z.mod_pos_bound l 1000). pose proof (Z.div_mod l 1000).
  lia.
Qed.

(** ** The decision table *)

Lemma checkForUpdate_cases (p : SyncPoint) :
  (checkForUpdate p = InSync /\ remote p = lastSync p /\ local p = lastSync p)
  \/ (checkForUpdate p = RemoteUpdateRequired /\ remote p = lastSync p /\ local p > lastSync p)
  \/ (checkForUpdate p = LocalUpdateRequired /\ local p = lastSync p /\ remote p > lastSync p)
  \/ (checkForUpdate p = DataDiverged /\ remote p > lastSync p /\ local p > lastSync p)
  \/ (checkForUpdate p = LastSyncNotUpToDate /\ (remote p < lastSync p \/ local p < lastSync p)).
Proof.
  unfold checkForUpdate.
  destruct (Z.eqb_spec (remote p) (lastSync p)), (Z.eqb_spec (local p) (lastSync p)),
    (Z.gtb_spec (remote p) (lastSync p)), (Z.gtb_spec (local p) (lastSync p));
    cbn; try lia; intuition lia.
Qed.

(** ** Paths of [sync] *)

Lemma sync_pre1_stop (env : Env) (ls : LocalStorage) (m : DropboxFileMetadata) :
  getMetaData env = Ok m ->
  pre1Stops env ls m = true ->
  sync env ls =
    (Ok None, checked env ls,
     preamble env ++ [EvLog PRE1_SameRev; EvInMemory; EvLog PRE1_NoLocalChanges]).
Proof.
  unfold pre1Stops, preamble, checked, lastSyncOf. intros Hm [Hrev Hsync]%andb_true_iff.
  unfold_sync. rewrite Hm. cbn. rewrite Hrev. cbn. rewrite Hsync. reflexivity.
Qed.

Lemma sync_stale (env : Env) (ls : LocalStorage) (m dm : DropboxFileMetadata)
    (rd : AppDataComplete) :
  getMetaData env = Ok m ->
  pre1Stops env ls m = false ->
  pre2Condition (lastLocalSyncModelChange (inMemory env)) (client_modified m) (lastSyncOf ls) = false ->
  download env = Ok (dm, rd) ->
  checkForUpdate (syncPointOf env ls rd) = LastSyncNotUpToDate ->
  sync env ls =
    (Ok None,
     mkLs (LS_DROPBOX_LAST_LOCAL_REVISION ls)
          (Some (lastLocalSyncModelChange (inMemory env))) (Some (now env)),
     generalPath env ls m ++ [EvSetLocalLastSync (lastLocalSyncModelChange (inMemory env))]).
Proof.
  unfold pre1Stops, generalPath, preamble, syncPointOf, lastSyncOf.
  intros Hm Hpre1 Hpre2 Hd Hc.
  unfold_sync. rewrite Hm. cbn.
  destruct (sameRev (rev m) (LS_DROPBOX_LAST_LOCAL_REVISION ls)); cbn in *;
    rewrite ?Hpre1; cbn; rewrite Hpre2; cbn; rewrite Hd; cbn; rewrite Hc; reflexivity.
Qed.

Lemma sync_diverged_deferred (env : Env) (ls : LocalStorage) (m dm : DropboxFileMetadata)
    (rd : AppDataComplete) :
  getMetaData env = Ok m ->
  pre1Stops env ls m = false ->
  pre2Condition (lastLocalSyncModelChange (inMemory env)) (client_modified m) (lastSyncOf ls) = false ->
  download env = Ok (dm, rd) ->
  checkForUpdate (syncPointOf env ls rd) = DataDiverged ->
  isAnswer (dialogAfterClosed env) "REMOTE" = false ->
  isAnswer (dialogAfterClosed env) "LOCAL" = false ->
  sync env ls =
    (Ok None, checked env ls,
     generalPath env ls m
     ++ [EvLog DBX_Separator; EvLog DBX_DivergedData;
         EvDialog (syncPointOf env ls rd) (dialogAfterClosed env)]).
Proof.
  unfold pre1Stops, generalPath, preamble, syncPointOf, checked, lastSyncOf.
  intros Hm Hpre1 Hpre2 Hd Hc Hr Hl.
  unfold_sync. rewrite Hm. cbn.
  destruct (sameRev (rev m) (LS_DROPBOX_LAST_LOCAL_REVISION ls)); cbn in *;
    rewrite ?Hpre1; cbn; rewrite Hpre2; cbn; rewrite Hd; cbn; rewrite Hc; cbn;
    rewrite Hr, Hl; reflexivity.
Qed.

(** ** C1 *)

(** C1: [checkForUpdate] answers every sync point with the outcome of the
    first matching row of the priority table: remote and local both equal to
    lastSync is [InSync]; remote equal and local ahead is
    [RemoteUpdateRequired]; local equal and remote ahead is
    [LocalUpdateRequired]; both ahead is [DataDiverged], whichever of the two
    is larger; every other point is [LastSyncNotUpToDate], and [sync] then
    only sets the last-sync time to local's change time: nothing is uploaded
    or imported and the revision token stays. *)
Theorem checkForUpdate_priority_table (p : SyncPoint) :
  (remote p = lastSync p /\ local p = lastSync p -> checkForUpdate p = InSync)
  /\ (remote p = lastSync p /\ local p > lastSync p ->
      checkForUpdate p = RemoteUpdateRequired)
  /\ (local p = lastSync p /\ remote p > lastSync p ->
      checkForUpdate p = LocalUpdateRequired)
  /\ (remote p > lastSync p /\ local p > lastSync p -> checkForUpdate p = DataDiverged)
  /\ (~ (remote p = lastSync p /\ local p = lastSync p) ->
      ~ (remote p = lastSync p /\ local p > lastSync p) ->
      ~ (local p = lastSync p /\ remote p > lastSync p) ->
      ~ (remote p > lastSync p /\ local p > lastSync p) ->
      checkForUpdate p = LastSyncNotUpToDate)
  /\ (forall env ls m dm rd,
        getMetaData env = Ok m ->
        pre1Stops env ls m = false ->
        pre2Condition (lastLocalSyncModelChange (inMemory env)) (client_modified m)
                      (lastSyncOf ls) = false ->
        download env = Ok (dm, rd) ->
        syncPointOf env ls rd = p ->
        ~ (remote p = lastSync p /\ local p = lastSync p) ->
        ~ (remote p = lastSync p /\ local p > lastSync p) ->
        ~ (local p = lastSync p /\ remote p > lastSync p) ->
        ~ (remote p > lastSync p /\ local p > lastSync p) ->
        resultOf (sync env ls) = Ok None
        /\ storageOf (sync env ls) =
             mkLs (LS_DROPBOX_LAST_LOCAL_REVISION ls) (Some (local p)) (Some (now env))
        /\ traceOf (sync env ls) = generalPath env ls m ++ [EvSetLocalLastSync (local p)]).
Proof.
  pose proof (checkForUpdate_cases p) as Hcases.
  split; [| split; [| split; [| split; [| split]]]].
  1-5: intros; intuition lia.
  intros env ls m dm rd Hm H1 H2 Hd Hp N1 N2 N3 N4.
  assert (Hc : checkForUpdate (syncPointOf env ls rd) = LastSyncNotUpToDate)
    by (rewrite Hp; intuition lia).
  rewrite (sync_stale env ls m dm rd Hm H1 H2 Hd Hc). subst p.
  repeat split.
Qed.

Lemma checkForUpdate_priority_table_witness :
  checkForUpdate (mkSyncPoint 1000 1000 1000) = InSync
  /\ checkForUpdate (mkSyncPoint 2000 1000 1000) = RemoteUpdateRequired
  /\ checkForUpdate (mkSyncPoint 1000 1000 2000) = LocalUpdateRequired
  /\ checkForUpdate (mkSyncPoint 2500 1000 3000) = DataDiverged
  /\ checkForUpdate (mkSyncPoint 1000 3000 2000) = LastSyncNotUpToDate
  /\ storageOf (sync (scenario true "rev-1" 2000 1000 2000 None) (bookkeeping None 3000))
     = mkLs None (Some 1000) (Some 5000).
Proof.
  destruct (checkForUpdate_priority_table (mkSyncPoint 1000 1000 1000)) as (H1 & _).
  destruct (checkForUpdate_priority_table (mkSyncPoint 2000 1000 1000)) as (_ & H2 & _).
  destruct (checkForUpdate_priority_table (mkSyncPoint 1000 1000 2000)) as (_ & _ & H3 & _).
  destruct (checkForUpdate_priority_table (mkSyncPoint 2500 1000 3000)) as (_ & _ & _ & H4 & _).
  destruct (checkForUpdate_priority_table (mkSyncPoint 1000 3000 2000))
    as (_ & _ & _ & _ & H5 & H6).
  cbn [remote local lastSync] in *.
  split; [apply H1; lia |].
  split; [apply H2; lia |].
  split; [apply H3; lia |].
  split; [apply H4; lia |].
  split; [apply H5; lia |].
  apply (H6 (scenario true "rev-1" 2000 1000 2000 None) (bookkeeping None 3000)
            (mkMeta "rev-1" 2000) (mkMeta "rev-1" 2000) (snapshot 2000));
    try reflexivity; cbn; lia.
Defined.

(** ** C4 *)

(** C4: when the metadata fetch brings the token that is cached as the last
    known revision and the snapshot in memory has the change time that is
    cached as last-sync time, the attempt ends in the first pre-check: it
    returns normally, no download, upload or import is issued, and the
    revision token and the last-sync time stay as they were. *)
Theorem revision_fast_path_no_download (env : Env) (ls : LocalStorage)
    (m : DropboxFileMetadata) :
  getMetaData env = Ok m ->
  LS_DROPBOX_LAST_LOCAL_REVISION ls = Some (rev m) ->
  lastSyncOf ls = lastLocalSyncModelChange (inMemory env) ->
  resultOf (sync env ls) = Ok None
  /\ none isDownload (traceOf (sync env ls)) = true
  /\ none isTransfer (traceOf (sync env ls)) = true
  /\ logged PRE1_NoLocalChanges (traceOf (sync env ls)) = true
  /\ storageOf (sync env ls) = checked env ls.
Proof.
  intros Hm Hrev Hsync.
  assert (Hpre1 : pre1Stops env ls m = true).
  { unfold pre1Stops. rewrite Hrev, Hsync. cbn.
    now rewrite String.eqb_refl, Z.eqb_refl. }
  rewrite (sync_pre1_stop env ls m Hm Hpre1).
  repeat split.
Qed.

Lemma revision_fast_path_no_download_witness :
  none isDownload
    (traceOf (sync (scenario true "rev-1" 1000 1000 1000 None) (bookkeeping (Some "rev-1") 1000)))
  = true.
Proof.
  apply (revision_fast_path_no_download
           (scenario true "rev-1" 1000 1000 1000 None) (bookkeeping (Some "rev-1") 1000)
           (mkMeta "rev-1" 1000)); reflexivity.
Defined.

(** ** C9 *)

(** C9: when the decision is [DataDiverged] and the dialog is closed with
    anything but 'REMOTE' or 'LOCAL' (a deferral, or no answer), the attempt
    returns normally, issues no upload and no import and writes neither the
    revision token nor the last-sync time; a next attempt that gets the same
    answers reaches the same divergence and asks again. *)
Theorem diverged_deferred_leaves_bookkeeping (env env' : Env) (ls : LocalStorage)
    (m dm : DropboxFileMetadata) (rd : AppDataComplete) :
  getMetaData env = Ok m ->
  pre1Stops env ls m = false ->
  pre2Condition (lastLocalSyncModelChange (inMemory env)) (client_modified m)
                (lastSyncOf ls) = false ->
  download env = Ok (dm, rd) ->
  checkForUpdate (syncPointOf env ls rd) = DataDiverged ->
  isAnswer (dialogAfterClosed env) "REMOTE" = false ->
  isAnswer (dialogAfterClosed env) "LOCAL" = false ->
  sameAnswers env env' ->
  (resultOf (sync env ls) = Ok None
   /\ none isUpload (traceOf (sync env ls)) = true
   /\ none isImport (traceOf (sync env ls)) = true
   /\ none isBookkeepingWrite (traceOf (sync env ls)) = true
   /\ LS_DROPBOX_LAST_LOCAL_REVISION (storageOf (sync env ls))
      = LS_DROPBOX_LAST_LOCAL_REVISION ls
   /\ LS_DROPBOX_LOCAL_LAST_SYNC (storageOf (sync env ls))
      = LS_DROPBOX_LOCAL_LAST_SYNC ls)
  /\ (resultOf (sync env' (storageOf (sync env ls))) = Ok None
      /\ logged DBX_DivergedData (traceOf (sync env' (storageOf (sync env ls)))) = true
      /\ In (EvDialog (syncPointOf env ls rd) (dialogAfterClosed env))
            (traceOf (sync env' (storageOf (sync env ls))))
      /\ none isBookkeepingWrite (traceOf (sync env' (storageOf (sync env ls)))) = true).
Proof.
  intros Hm H1 H2 Hd Hc Hr Hl (Em & Ei & Ed & Ea).
  rewrite (sync_diverged_deferred env ls m dm rd Hm H1 H2 Hd Hc Hr Hl).
  unfold storageOf at 1 2 3 4 5 6. cbn [fst snd].
  assert (Hm' : getMetaData env' = Ok m) by congruence.
  assert (Hd' : download env' = Ok (dm, rd)) by congruence.
  assert (Hp : syncPointOf env' (checked env ls) rd = syncPointOf env ls rd)
    by (unfold syncPointOf; now rewrite Ei).
  assert (H1' : pre1Stops env' (checked env ls) m = false)
    by (unfold pre1Stops in *; now rewrite Ei).
  assert (H2' : pre2Condition (lastLocalSyncModelChange (inMemory env')) (client_modified m)
                  (lastSyncOf (checked env ls)) = false) by now rewrite Ei.
  assert (Hc' : checkForUpdate (syncPointOf env' (checked env ls) rd) = DataDiverged)
    by now rewrite Hp.
  rewrite <- Ea in Hr, Hl.
  rewrite (sync_diverged_deferred env' (checked env ls) m dm rd Hm' H1' H2' Hd' Hc' Hr Hl).
  rewrite Hp, Ea.
  unfold generalPath, preamble, resultOf, traceOf, storageOf, checked, none, logged.
  cbn [fst snd LS_DROPBOX_LAST_LOCAL_REVISION LS_DROPBOX_LOCAL_LAST_SYNC].
  rewrite !forallb_app, !existsb_app.
  destruct (sameRev (rev m) (LS_DROPBOX_LAST_LOCAL_REVISION ls)); cbn;
    repeat split; try reflexivity; find_in.
Qed.

Lemma diverged_deferred_leaves_bookkeeping_witness :
  LS_DROPBOX_LOCAL_LAST_SYNC
    (storageOf (sync (scenario true "rev-2" 3000 2500 3000 (Some "DEFER"))
                     (bookkeeping (Some "rev-1") 1000)))
  = Some 1000.
Proof.
  pose proof (diverged_deferred_leaves_bookkeeping
                (scenario true "rev-2" 3000 2500 3000 (Some "DEFER"))
                (scenario true "rev-2" 3000 2500 3000 (Some "DEFER"))
                (bookkeeping (Some "rev-1") 1000)
                (mkMeta "rev-2" 3000) (mkMeta "rev-2" 3000) (snapshot 3000)
                eq_refl eq_refl eq_refl eq_refl eq_refl eq_refl eq_refl
                (conj eq_refl (conj eq_refl (conj eq_refl eq_refl))))
    as ((_ & _ & _ & _ & _ & Hsync) & _).
  exact Hsync.
Defined.

(** ** C5 *)

(** C5, as stated, fails: the ordering test of the second pre-check
    truncates the local change time.  With local changed at 1500 ms, the
    remote modified at 1000 ms and lastSync 1000 ms the test of the source is
    false, while the raw ordering the claim describes makes it true; the
    attempt then downloads instead of taking the upload fast path. *)
Lemma pre2_ordering_test_truncates_local :
  pre2Condition 1500 1000 1000 = false
  /\ pre2Condition_rawOrdering 1500 1000 1000 = true
  /\ logged PRE2_UpdateRemote
       (traceOf (sync (scenario true "rev-1" 1000 1500 1000 None)
                      (bookkeeping (Some "rev-1") 1000))) = false
  /\ existsb isDownload
       (traceOf (sync (scenario true "rev-1" 1000 1500 1000 None)
                      (bookkeeping (Some "rev-1") 1000))) = true.
Proof. repeat split. Qed.

(** C5, amended: in the second pre-check both local markers are truncated to
    whole seconds before they meet the remote-modified time, lastSync in the
    equality test and the local change time in the ordering test; only the
    ordering test between the two local markers is raw.  So the test holds
    exactly when the remote-modified time is lastSync truncated to whole
    seconds and local lies in a later whole second than lastSync; it depends
    on the local markers through their whole seconds only, and the raw
    orderings lastSync < local and remote < local follow from it. *)
Theorem pre2Condition_whole_seconds (l c s : Z) :
  (pre2Condition l c s = true <-> c = 1000 * (s / 1000) /\ s / 1000 < l / 1000)
  /\ (forall l' s', l' / 1000 = l / 1000 -> s' / 1000 = s / 1000 ->
        pre2Condition l' c s' = pre2Condition l c s)
  /\ (pre2Condition l c s = true -> s < l /\ c < l).
Proof.
  split; [apply pre2Condition_iff |]. split.
  - intros l' s' Hl Hs.
    apply eq_true_iff_eq. rewrite !pre2Condition_iff, Hl, Hs. reflexivity.
  - apply pre2Condition_raw.
Qed.

Lemma pre2Condition_whole_seconds_witness :
  pre2Condition 2999 1000 1999 = pre2Condition 2000 1000 1000
  /\ 1000 < 2000.
Proof.
  destruct (pre2Condition_whole_seconds 2000 1000 1000) as (_ & Hsec & Hraw).
  split.
  - apply Hsec; reflexivity.
  - apply Hraw. reflexivity.
Defined.

(** ** C2 *)

Lemma logged_pre2_inv (env : Env) (ls : LocalStorage) :
  logged PRE2_UpdateRemote (traceOf (sync env ls)) = true ->
  exists m, getMetaData env = Ok m
    /\ pre1Stops env ls m = false
    /\ pre2Condition (lastLocalSyncModelChange (inMemory env)) (client_modified m)
                     (lastSyncOf ls) = true
    /\ none isDownload (traceOf (sync env ls)) = true
    /\ In (EvUpload (inMemory env) (lastLocalSyncModelChange (inMemory env))
             (upload env (inMemory env) (lastLocalSyncModelChange (inMemory env))))
          (traceOf (sync env ls)).
Proof.
  unfold pre1Stops. run_sync; intros H; try discriminate.
  all: eexists; split; [reflexivity |].
  all: repeat match goal with H : _ = _ |- _ => rewrite H end; cbn.
  all: repeat split; find_in.
Qed.

Lemma pre2_logged (env : Env) (ls : LocalStorage) (m : DropboxFileMetadata) :
  getMetaData env = Ok m ->
  pre1Stops env ls m = false ->
  pre2Condition (lastLocalSyncModelChange (inMemory env)) (client_modified m)
                (lastSyncOf ls) = true ->
  logged PRE2_UpdateRemote (traceOf (sync env ls)) = true.
Proof.
  unfold pre1Stops, lastSyncOf. intros Hm H1 H2. unfold_sync. rewrite Hm. cbn.
  destruct (sameRev (rev m) (LS_DROPBOX_LAST_LOCAL_REVISION ls)); cbn in *;
    rewrite ?H1; cbn; rewrite H2; cbn; repeat (split_test; cbn); reflexivity.
Qed.

(** C2, as stated, fails: the remote carries the token rev-2 while rev-1 is
    cached, lastSync is 1500 ms and the remote was modified at 1000 ms; with
    local changed at 2000 ms the attempt takes the upload fast path, uploads
    and never downloads, although the tokens differ and lastSync is not the
    remote's modified time. *)
Lemma upload_fast_path_without_same_rev :
  logged PRE2_UpdateRemote
    (traceOf (sync (scenario true "rev-2" 1000 2000 1000 None)
                   (bookkeeping (Some "rev-1") 1500))) = true
  /\ existsb isUpload
       (traceOf (sync (scenario true "rev-2" 1000 2000 1000 None)
                      (bookkeeping (Some "rev-1") 1500))) = true
  /\ none isDownload
       (traceOf (sync (scenario true "rev-2" 1000 2000 1000 None)
                      (bookkeeping (Some "rev-1") 1500))) = true
  /\ sameRev "rev-2" (LS_DROPBOX_LAST_LOCAL_REVISION (bookkeeping (Some "rev-1") 1500)) = false
  /\ lastSyncOf (bookkeeping (Some "rev-1") 1500) <> 1000.
Proof. repeat split. discriminate. Qed.

(** C2, amended: the upload fast path is taken exactly when the metadata
    fetch succeeded, the attempt did not stop in the first pre-check, the
    remote's modified time is lastSync truncated to whole seconds and local
    lies in a later whole second than lastSync; the tokens need not be equal.
    Every attempt that takes it issues the upload of the local snapshot, issues
    no download, and has local > lastSync. *)
Theorem upload_fast_path_iff (env : Env) (ls : LocalStorage) :
  (logged PRE2_UpdateRemote (traceOf (sync env ls)) = true <->
   exists m, getMetaData env = Ok m
     /\ pre1Stops env ls m = false
     /\ client_modified m = 1000 * (lastSyncOf ls / 1000)
     /\ lastSyncOf ls / 1000 < lastLocalSyncModelChange (inMemory env) / 1000)
  /\ (logged PRE2_UpdateRemote (traceOf (sync env ls)) = true ->
      none isDownload (traceOf (sync env ls)) = true
      /\ In (EvUpload (inMemory env) (lastLocalSyncModelChange (inMemory env))
               (upload env (inMemory env) (lastLocalSyncModelChange (inMemory env))))
            (traceOf (sync env ls))
      /\ lastSyncOf ls < lastLocalSyncModelChange (inMemory env)).
Proof.
  split; [split |].
  - intros (m & Hm & H1 & H2 & _)%logged_pre2_inv.
    exists m. apply pre2Condition_iff in H2. tauto.
  - intros (m & Hm & H1 & H2). apply (pre2_logged env ls m Hm H1).
    now apply pre2Condition_iff.
  - intros (m & Hm & H1 & H2 & Hd & Hu)%logged_pre2_inv.
    repeat split; trivial.
    now apply (pre2Condition_raw _ (client_modified m)).
Qed.

Lemma upload_fast_path_iff_witness :
  none isDownload
    (traceOf (sync (scenario true "rev-2" 1000 2000 1000 None)
                   (bookkeeping (Some "rev-1") 1500))) = true
  /\ lastSyncOf (bookkeeping (Some "rev-1") 1500) < 2000.
Proof.
  destruct (upload_fast_path_iff (scenario true "rev-2" 1000 2000 1000 None)
                                 (bookkeeping (Some "rev-1") 1500)) as [Hiff Htaken].
  assert (Hlog : logged PRE2_UpdateRemote
                   (traceOf (sync (scenario true "rev-2" 1000 2000 1000 None)
                                  (bookkeeping (Some "rev-1") 1500))) = true).
  { apply Hiff. exists (mkMeta "rev-2" 1000). repeat split. }
  destruct (Htaken Hlog) as (Hd & _ & Hlt). split; assumption.
Defined.

(** ** C3 *)

(** Whatever [isEnabledAndReady$] emits first, the attempt goes the same
    way: the callback of [tap] builds its error and drops it. *)
Lemma sync_ignores_readiness (isReady : bool) (env : Env) (ls : LocalStorage) :
  resultOf (sync (withReady isReady env) ls) = resultOf (sync env ls)
  /\ storageOf (sync (withReady isReady env) ls) = storageOf (sync env ls)
  /\ traceOf (sync (withReady isReady env) ls)
     = EvReady isReady :: tl (traceOf (sync env ls)).
Proof.
  run_sync; repeat split.
Qed.

(** C3: with remote sync not ready (the first value of [isEnabledAndReady$]
    is false) the attempt does not fail: the error of the readiness check is
    built and not thrown, the attempt is marked as observed, the metadata is
    fetched, and here the local snapshot is uploaded and the bookkeeping is
    rewritten. *)
Theorem sync_runs_when_not_ready :
  readyTap false = TapError "Dropbox Sync not ready"
  /\ sync (scenario false "rev-1" 1000 2000 1000 None) (bookkeeping (Some "rev-1") 1000)
     = (Ok (Some (mkMeta "rev-up" 2000)),
        mkLs (Some "rev-up") (Some 2000) (Some 5000),
        [EvReady false; EvSetLocalLastSyncCheck 5000;
         EvGetMetaData (Ok (mkMeta "rev-1" 1000));
         EvGetLocalLastSync; EvGetLocalRev; EvLog PRE1_SameRev; EvInMemory;
         EvLog PRE2_UpdateRemote;
         EvUpload (snapshot 2000) 2000 (Ok (mkMeta "rev-up" 2000));
         EvSetLocalRev "rev-up"; EvSetLocalLastSync 2000; EvLog DBX_Uploaded]).
Proof. split; reflexivity. Qed.

(** ** The two embeddings agree *)

Lemma lower_lift (d : AppDataComplete) : lowerData (liftData d) = d.
Proof. destruct d; reflexivity. Qed.

Lemma pre2Condition_lift (l c s : Z) :
  Nullable.pre2Condition (Num l) c s = pre2Condition l c s.
Proof. reflexivity. Qed.

Lemma checkForUpdate_lift (l s r : Z) :
  Nullable.checkForUpdate (Nullable.mkSyncPoint (Num l) s (Num r))
  = checkForUpdate (mkSyncPoint l s r).
Proof. reflexivity. Qed.

Lemma change_lift (d : AppDataComplete) :
  Nullable.lastLocalSyncModelChange (liftData d) = Num (lastLocalSyncModelChange d).
Proof. reflexivity. Qed.

Lemma orZero_Some (n : Z) : orZero (Some n) = n.
Proof. reflexivity. Qed.

(** When every change time is a number, the test of [_setLocalLastSync]
    never fires, and an attempt of the service over nullable change times is
    the attempt of the service over numbers: same result, same storage, same
    effects in the same order. *)
Lemma Nullable_sync_agrees (env : Env) (ls : LocalStorage) :
  Nullable.sync (liftEnv env) ls
  = (liftRes (fun r => r) (resultOf (sync env ls)), storageOf (sync env ls),
     map liftEvent (traceOf (sync env ls))).
Proof.
  cases_of_sync env ls.
  all: unfold_nsync;
    repeat (cbn;
            first [ rewrite lower_lift | rewrite change_lift | rewrite orZero_Some
                  | rewrite pre2Condition_lift | rewrite checkForUpdate_lift
                  | match goal with H : _ = _ |- _ => rewrite H end ]).
  all: try reflexivity.
Qed.

(** ** C6 *)


(** ** C7 *)




(** ** C8 *)

(** C8, as stated, fails.  The attempt fetches the metadata first and reads
    the last-sync time and the revision token afterwards; the revision token
    is read once more right before the download; and in the stale branch the
    last-sync time is written although nothing was uploaded or imported.
    And an attempt can be abandoned after a partial write: with the change
    time [null] in memory, the upload of the second pre-check gets through,
    the token is written, and the attempt ends with an error before any
    write of the last-sync time. *)
Lemma bookkeeping_read_after_network_call :
  (Nullable.traceOf (Nullable.sync (Nullable.scenario true "rev-1" 2000 (Num 1000) (Num 2000) None)
                                   (bookkeeping None 3000))
   = [Nullable.EvReady true; Nullable.EvSetLocalLastSyncCheck 5000;
      Nullable.EvGetMetaData (Nullable.Ok (mkMeta "rev-1" 2000));
      Nullable.EvGetLocalLastSync; Nullable.EvGetLocalRev; Nullable.EvInMemory;
      Nullable.EvGetLocalRev;
      Nullable.EvDownload None (Nullable.Ok (mkMeta "rev-1" 2000, Nullable.snapshot (Num 2000)));
      Nullable.EvSetLocalLastSync 1000]
   /\ Nullable.readsBeforeNetwork
        (Nullable.traceOf (Nullable.sync
           (Nullable.scenario true "rev-1" 2000 (Num 1000) (Num 2000) None)
           (bookkeeping None 3000))) = false)
  /\ (Nullable.resultOf (Nullable.sync
        (Nullable.scenario true "rev-1" (-1000) Null (Num (-1000)) None)
        (bookkeeping (Some "rev-1") (-1000)))
      = Nullable.Err Nullable.NoCorrectLocalLastSync
      /\ existsb Nullable.isRevWrite
           (Nullable.traceOf (Nullable.sync
              (Nullable.scenario true "rev-1" (-1000) Null (Num (-1000)) None)
              (bookkeeping (Some "rev-1") (-1000)))) = true
      /\ existsb Nullable.isLastSyncWrite
           (Nullable.traceOf (Nullable.sync
              (Nullable.scenario true "rev-1" (-1000) Null (Num (-1000)) None)
              (bookkeeping (Some "rev-1") (-1000)))) = false).
Proof. repeat split. Qed.

(** C8, amended: within one attempt every read of the revision token and
    of the last-sync time comes after the metadata fetch and before any
    download, upload or import is issued.  The revision token and the
    last-sync time are written only after an upload or an import that
    succeeded; the one exception is the stale branch, where the download got
    through, the decision is [LastSyncNotUpToDate], and the single write of
    the attempt, its last effect, sets the last-sync time to the change time
    of the snapshot in memory.  An attempt that ends with a transport error,
    an import error or 'No rev given' has written neither of the two. *)
Theorem bookkeeping_order (env : Nullable.Env) (ls : LocalStorage) :
  Nullable.readsAfterMetaData (Nullable.traceOf (Nullable.sync env ls)) = true
  /\ Nullable.readsBeforeTransfer (Nullable.traceOf (Nullable.sync env ls)) = true
  /\ (Nullable.writesAfterApplied false (Nullable.traceOf (Nullable.sync env ls)) = true
      \/ Nullable.staleRepair env ls (Nullable.traceOf (Nullable.sync env ls)))
  /\ (forall e, Nullable.resultOf (Nullable.sync env ls) = Nullable.Err e ->
        e <> Nullable.NoCorrectLocalLastSync ->
        Nullable.none Nullable.isBookkeepingWrite (Nullable.traceOf (Nullable.sync env ls))
        = true
        /\ LS_DROPBOX_LAST_LOCAL_REVISION (Nullable.storageOf (Nullable.sync env ls))
           = LS_DROPBOX_LAST_LOCAL_REVISION ls
        /\ LS_DROPBOX_LOCAL_LAST_SYNC (Nullable.storageOf (Nullable.sync env ls))
           = LS_DROPBOX_LOCAL_LAST_SYNC ls).
Proof.
  split; [| split; [| split]].
  - cases_of_nsync env ls; reflexivity.
  - cases_of_nsync env ls; reflexivity.
  - unfold Nullable.staleRepair, Nullable.generalPath, Nullable.preamble,
      Nullable.syncPointOf, lastSyncOf.
    cases_of_nsync env ls; cbn;
      first [ left; reflexivity
            | right; eexists; eexists; eexists;
              repeat match goal with E : _ = _ |- _ => rewrite E end;
              repeat split; cbn; reflexivity ].
  - cases_of_nsync env ls; cbn; intros ? He Hne; try discriminate;
      try (injection He as <-; congruence); repeat split.
Qed.

Lemma bookkeeping_order_witness :
  Nullable.none Nullable.isBookkeepingWrite
    (Nullable.traceOf (Nullable.sync (Nullable.scenario true "" 2000 (Num 1000) (Num 2000) None)
                                     (bookkeeping (Some "rev-1") 1000)))
  = true.
Proof.
  exact (proj1 (proj2 (proj2 (proj2
           (bookkeeping_order (Nullable.scenario true "" 2000 (Num 1000) (Num 2000) None)
                              (bookkeeping (Some "rev-1") 1000))))
           Nullable.NoRevGiven eq_refl ltac:(discriminate))).
Defined.

(** ** C10 *)

(** C10, as stated, fails, with every call getting through in both attempts.
    Tokens differ and all three times are equal: the first attempt downloads
    and finds [InSync], writes nothing, and the second downloads again.
    Both sides ahead and the dialog deferred: the second attempt diverges
    again.  lastSync ahead of both sides: the first attempt resets it and the
    second imports the remote snapshot. *)
Lemma second_attempt_not_always_in_sync :
  (inSyncRun (eventsOf (attempt (fair None) (scenarioWorld None 1000 "rev-1" 1000 1000 1000)))
   = true
   /\ existsb isDownload
        (eventsOf (attempt (fair None)
           (worldAfter (attempt (fair None) (scenarioWorld None 1000 "rev-1" 1000 1000 1000)))))
      = true)
  /\ (inSyncRun
        (eventsOf (attempt (fair (Some "DEFER"))
           (worldAfter (attempt (fair (Some "DEFER"))
              (scenarioWorld (Some "rev-1") 1000 "rev-2" 3000 2500 3000)))))
      = false
      /\ logged DBX_DivergedData
           (eventsOf (attempt (fair (Some "DEFER"))
              (worldAfter (attempt (fair (Some "DEFER"))
                 (scenarioWorld (Some "rev-1") 1000 "rev-2" 3000 2500 3000)))))
         = true)
  /\ (inSyncRun
        (eventsOf (attempt (fair None)
           (worldAfter (attempt (fair None) (scenarioWorld None 3000 "rev-1" 2000 1000 2000)))))
      = false
      /\ existsb isImport
           (eventsOf (attempt (fair None)
              (worldAfter (attempt (fair None) (scenarioWorld None 3000 "rev-1" 2000 1000 2000)))))
         = true).
Proof. repeat split. Qed.

(** After an attempt that ended in the first pre-check or carried an upload
    or an import through, the cached token is the remote's token and the
    cached last-sync time is the change time of the snapshot in memory. *)
Lemma settled_world (c1 c2 : Conditions) (w : World) :
  settled (eventsOf (attempt c1 w)) = true ->
  pre1Stops (envOf c2 (worldAfter (attempt c1 w)))
            (storage (worldAfter (attempt c1 w)))
            (remoteMeta (worldAfter (attempt c1 w))) = true.
Proof.
  unfold attempt, worldAfter, eventsOf.
  cases_of_sync (envOf c1 w) (storage w);
    cbn; intros H; try discriminate;
    unfold pre1Stops, lastSyncOf, orZero in *; cbn;
    rewrite ?String.eqb_refl, ?Z.eqb_refl; try reflexivity;
    repeat match goal with
      | E : Ok _ = Ok _ |- _ => injection E as <-
      | E : _ = true |- _ => rewrite E
      end; reflexivity.
Qed.

(** C10, amended: when an attempt ended in the first pre-check or carried
    an upload or an import through, and nothing outside changes the remote
    file or the snapshot in memory, the next attempt whose metadata fetch
    gets through ends in the first pre-check: it returns normally, issues no
    download, upload or import, and writes neither the revision token nor the
    last-sync time. *)
Theorem second_attempt_after_settled (c1 c2 : Conditions) (w : World) :
  settled (eventsOf (attempt c1 w)) = true ->
  metaDataOk c2 = true ->
  outcomeOf (attempt c2 (worldAfter (attempt c1 w))) = Ok None
  /\ logged PRE1_NoLocalChanges (eventsOf (attempt c2 (worldAfter (attempt c1 w)))) = true
  /\ none isTransfer (eventsOf (attempt c2 (worldAfter (attempt c1 w)))) = true
  /\ none isBookkeepingWrite (eventsOf (attempt c2 (worldAfter (attempt c1 w)))) = true.
Proof.
  intros Hsettled Hmeta.
  pose proof (settled_world c1 c2 w Hsettled) as Hpre1.
  set (w1 := worldAfter (attempt c1 w)) in *.
  assert (Hm : getMetaData (envOf c2 w1) = Ok (remoteMeta w1))
    by (cbn; now rewrite Hmeta).
  unfold attempt, outcomeOf, eventsOf. cbn [fst snd].
  rewrite (sync_pre1_stop (envOf c2 w1) (storage w1) (remoteMeta w1) Hm Hpre1).
  unfold preamble. rewrite Hm. repeat split.
Qed.

Lemma second_attempt_after_settled_witness :
  none isTransfer
    (eventsOf (attempt (fair None)
       (worldAfter (attempt (fair None)
          (scenarioWorld (Some "rev-1") 1000 "rev-1" 1000 2000 1000)))))
  = true.
Proof.
  exact (proj1 (proj2 (proj2
           (second_attempt_after_settled (fair None) (fair None)
              (scenarioWorld (Some "rev-1") 1000 "rev-1" 1000 2000 1000)
              eq_refl eq_refl)))).
Defined.

(** * Further properties of the service *)

(** The member of a trace a hypothesis speaks of. *)
Ltac pick_event H :=
  cbn in H; repeat (destruct H as [H | H]; try discriminate H); try contradiction.

(** Run [sync] along the general path up to the decision. *)
Ltac general_path Hm H1 H2 Hd :=
  unfold pre1Stops, generalPath, preamble, syncPointOf, checked, lastSyncOf in *;
  unfold_sync; rewrite Hm; cbn;
  match goal with
  | |- context [sameRev ?a ?b] => destruct (sameRev a b)
  end; cbn in *; rewrite ?H1; cbn; rewrite H2; cbn; rewrite Hd; cbn.

(** ** The start of an attempt and its failures *)

(** X1: every attempt, however it ends, first awaits the readiness value,
    then stamps the last-sync check with the clock and then fetches the
    metadata; the stamp is written once and is what the storage holds at the
    end. *)
Theorem attempt_always_observed (env : Env) (ls : LocalStorage) :
  LS_DROPBOX_LOCAL_LAST_SYNC_CHECK (storageOf (sync env ls)) = Some (now env)
  /\ countOf isLastSyncCheckWrite (traceOf (sync env ls)) = 1%nat
  /\ exists t, traceOf (sync env ls)
               = EvReady (isEnabledAndReady env) :: EvSetLocalLastSyncCheck (now env)
                 :: EvGetMetaData (getMetaData env) :: t.
Proof.
  cases_of_sync env ls; cbn; repeat split; eexists; reflexivity.
Qed.

(** X2: when the metadata fetch fails, the attempt ends with that error
    right there: the bookkeeping is not read, the snapshot in memory is not
    read, nothing is transferred, and only the last-sync check was written. *)
Theorem metadata_failure_stops (env : Env) (ls : LocalStorage) (e : SyncError) :
  getMetaData env = Err e ->
  sync env ls
  = (Err e, checked env ls,
     [EvReady (isEnabledAndReady env); EvSetLocalLastSyncCheck (now env);
      EvGetMetaData (Err e)]).
Proof.
  intros Hm. unfold_sync. rewrite Hm. reflexivity.
Qed.

Lemma metadata_failure_stops_witness :
  sync (envOf noMetaData (scenarioWorld (Some "rev-1") 1000 "rev-2" 2000 1000 2000))
       (bookkeeping (Some "rev-1") 1000)
  = (Err TransportError, mkLs (Some "rev-1") (Some 1000) (Some 5000),
     [EvReady true; EvSetLocalLastSyncCheck 5000; EvGetMetaData (Err TransportError)]).
Proof.
  exact (metadata_failure_stops
           (envOf noMetaData (scenarioWorld (Some "rev-1") 1000 "rev-2" 2000 1000 2000))
           (bookkeeping (Some "rev-1") 1000) TransportError eq_refl).
Defined.

(** X3: when neither pre-check applies and the download fails, the attempt
    ends with that error: no decision is taken, nothing is uploaded or
    imported, the dialog is not opened, and the revision token and the
    last-sync time stay as they were. *)
Theorem download_failure_stops (env : Env) (ls : LocalStorage) (m : DropboxFileMetadata)
    (e : SyncError) :
  getMetaData env = Ok m ->
  pre1Stops env ls m = false ->
  pre2Condition (lastLocalSyncModelChange (inMemory env)) (client_modified m)
                (lastSyncOf ls) = false ->
  download env = Err e ->
  sync env ls = (Err e, checked env ls, generalPath env ls m).
Proof.
  unfold pre1Stops, generalPath, preamble, checked, lastSyncOf.
  intros Hm H1 H2 Hd.
  unfold_sync. rewrite Hm. cbn.
  destruct (sameRev (rev m) (LS_DROPBOX_LAST_LOCAL_REVISION ls)); cbn in *;
    rewrite ?H1; cbn; rewrite H2; cbn; rewrite Hd; reflexivity.
Qed.

Lemma download_failure_stops_witness :
  resultOf (sync (envOf noDownload (scenarioWorld (Some "rev-1") 1000 "rev-2" 2000 1000 2000))
                 (bookkeeping (Some "rev-1") 1000))
  = Err TransportError.
Proof.
  exact (f_equal resultOf
           (download_failure_stops
              (envOf noDownload (scenarioWorld (Some "rev-1") 1000 "rev-2" 2000 1000 2000))
              (bookkeeping (Some "rev-1") 1000) (mkMeta "rev-2" 2000) TransportError
              eq_refl eq_refl eq_refl eq_refl)).
Defined.

(** X4: an attempt fails only with an error that the metadata fetch, the
    download, the upload of the snapshot in memory or the import of the
    downloaded snapshot answered with, with 'No rev given' when an upload or
    a download got through without a revision, or with 'No correct
    localLastSync given' when the change time of the snapshot in memory or
    of the downloaded snapshot is not a number.  So when all four get
    through and bring a revision, and both change times are numbers, the
    attempt does not fail. *)
Theorem errors_of_an_attempt (env : Nullable.Env) (ls : LocalStorage) :
  (forall e, Nullable.resultOf (Nullable.sync env ls) = Nullable.Err e ->
             Nullable.errorFrom env e)
  /\ ((exists m, Nullable.getMetaData env = Nullable.Ok m) ->
      (exists r, Nullable.download env = Nullable.Ok r /\ truthy (rev (fst r)) = true
                 /\ isNumber (Nullable.lastLocalSyncModelChange (snd r)) = true
                 /\ Nullable.importCompleteSyncData env (snd r) = Nullable.Ok tt) ->
      (exists m, Nullable.upload env (Nullable.inMemory env)
                   (Nullable.lastLocalSyncModelChange (Nullable.inMemory env))
                 = Nullable.Ok m
                 /\ truthy (rev m) = true) ->
      isNumber (Nullable.lastLocalSyncModelChange (Nullable.inMemory env)) = true ->
      exists r, Nullable.resultOf (Nullable.sync env ls) = Nullable.Ok r).
Proof.
  assert (Herr : forall e, Nullable.resultOf (Nullable.sync env ls) = Nullable.Err e ->
                           Nullable.errorFrom env e).
  { cases_of_nsync env ls; cbn; intros e' H; try discriminate; injection H as <-;
      unfold Nullable.errorFrom; truthy_hyps;
      repeat match goal with E : Nullable.lastLocalSyncModelChange _ = _ |- _ =>
               rewrite E end;
      first
        [ left; assumption
        | right; left; assumption
        | right; right; left; assumption
        | right; right; right; left; eexists; split; eassumption
        | right; right; right; right; left; split; [reflexivity |];
          first [ left; eexists; split; eassumption
                | right; eexists; split; eassumption ]
        | right; right; right; right; right; split; [reflexivity |];
          first [ left; reflexivity
                | right; eexists; split; [eassumption |];
                  match goal with E : Nullable.lastLocalSyncModelChange _ = _ |- _ =>
                    rewrite E end; reflexivity ] ]. }
  split; [exact Herr |].
  intros (m & Hm) (r & Hd & Hr & Hn & Hi) (um & Hu & Hur) Hl.
  destruct (Nullable.resultOf (Nullable.sync env ls)) as [x | e] eqn:Hres; [now exists x |].
  exfalso. specialize (Herr e eq_refl).
  unfold Nullable.errorFrom in Herr.
  destruct Herr
    as [H | [H | [H | [(r' & H1 & H2) | [(_ & [(m' & H1 & H2) | (r' & H1 & H2)])
                                        | (_ & [H | (r' & H1 & H2)])]]]]];
    congruence.
Qed.

Lemma errors_of_an_attempt_witness :
  Nullable.errorFrom (Nullable.scenario true "rev-1" (-1000) Null (Num (-1000)) None)
                     Nullable.NoCorrectLocalLastSync
  /\ exists r, Nullable.resultOf
                 (Nullable.sync (Nullable.scenario true "rev-2" 2000 (Num 1000) (Num 2000) None)
                                (bookkeeping (Some "rev-1") 1000)) = Nullable.Ok r.
Proof.
  split.
  - exact (proj1 (errors_of_an_attempt
                    (Nullable.scenario true "rev-1" (-1000) Null (Num (-1000)) None)
                    (bookkeeping (Some "rev-1") (-1000)))
                 Nullable.NoCorrectLocalLastSync eq_refl).
  - refine (proj2 (errors_of_an_attempt
                     (Nullable.scenario true "rev-2" 2000 (Num 1000) (Num 2000) None)
                     (bookkeeping (Some "rev-1") 1000)) _ _ _ eq_refl).
    + exists (mkMeta "rev-2" 2000). reflexivity.
    + exists (mkMeta "rev-2" 2000, Nullable.snapshot (Num 2000)). repeat split.
    + exists (mkMeta "rev-up" 1000). repeat split.
Defined.

(** ** What an attempt transfers *)

(** X5: whatever an attempt uploads is the snapshot in memory, stamped
    with that snapshot's own [lastLocalSyncModelChange] as client-modified
    time; an attempt that uploads imports nothing. *)
Theorem upload_sends_memory (env : Env) (ls : LocalStorage) (d : AppDataComplete)
    (cm : Z) (res : Res DropboxFileMetadata) :
  In (EvUpload d cm res) (traceOf (sync env ls)) ->
  d = inMemory env
  /\ cm = lastLocalSyncModelChange (inMemory env)
  /\ res = upload env (inMemory env) (lastLocalSyncModelChange (inMemory env))
  /\ none isImport (traceOf (sync env ls)) = true.
Proof.
  cases_of_sync env ls; intros H; pick_event H; injection H as <- <- <-;
    repeat split; congruence.
Qed.

Lemma upload_sends_memory_witness :
  snapshot 2000 = inMemory (scenario true "rev-1" 1000 2000 1000 None)
  /\ 2000 = lastLocalSyncModelChange (inMemory (scenario true "rev-1" 1000 2000 1000 None)).
Proof.
  pose proof (upload_sends_memory
                (scenario true "rev-1" 1000 2000 1000 None) (bookkeeping (Some "rev-1") 1000)
                (snapshot 2000) 2000 (Ok (mkMeta "rev-up" 2000))
                ltac:(vm_compute; find_in)) as (Hd & Hcm & _).
  split; assumption.
Defined.

(** X6: whatever an attempt imports is the snapshot its own download
    delivered, and only when that download came with a revision; such an
    attempt uploads nothing, and when the import gets through the attempt
    returns normally with the download's revision and the imported
    snapshot's change time stored. *)
Theorem import_is_downloaded_snapshot (env : Env) (ls : LocalStorage) (d : AppDataComplete)
    (res : Res unit) :
  In (EvImport d res) (traceOf (sync env ls)) ->
  exists r, download env = Ok r
    /\ d = snd r
    /\ truthy (rev (fst r)) = true
    /\ res = importCompleteSyncData env (snd r)
    /\ none isUpload (traceOf (sync env ls)) = true
    /\ (res = Ok tt ->
        resultOf (sync env ls) = Ok None
        /\ storageOf (sync env ls)
           = mkLs (Some (rev (fst r))) (Some (lastLocalSyncModelChange (snd r)))
                  (Some (now env))).
Proof.
  cases_of_sync env ls; intros H; pick_event H; injection H as <- <-; truthy_hyps;
    eexists; (split; [reflexivity |]); repeat split; try assumption; try congruence;
    intros; discriminate.
Qed.

Lemma import_is_downloaded_snapshot_witness :
  exists r, download (scenario true "rev-2" 2000 1000 2000 None) = Ok r
            /\ snapshot 2000 = snd r.
Proof.
  destruct (import_is_downloaded_snapshot
              (scenario true "rev-2" 2000 1000 2000 None) (bookkeeping (Some "rev-1") 1000)
              (snapshot 2000) (Ok tt) ltac:(vm_compute; find_in))
    as (r & Hd & Hs & _).
  exists r. split; assumption.
Defined.

(** X7: one attempt fetches the metadata exactly once, reads the snapshot
    in memory at most once (exactly once when the fetch gets through), issues
    at most one download, opens the dialog at most once, and issues at most
    one upload or import, never both. *)
Theorem effects_at_most_once (env : Env) (ls : LocalStorage) :
  countOf isMetaData (traceOf (sync env ls)) = 1%nat
  /\ (countOf isInMemory (traceOf (sync env ls)) <= 1)%nat
  /\ (countOf isDownload (traceOf (sync env ls)) <= 1)%nat
  /\ (countOf isDialog (traceOf (sync env ls)) <= 1)%nat
  /\ (countOf isUpload (traceOf (sync env ls))
      + countOf isImport (traceOf (sync env ls)) <= 1)%nat
  /\ ((exists m, getMetaData env = Ok m) ->
      countOf isInMemory (traceOf (sync env ls)) = 1%nat).
Proof.
  cases_of_sync env ls; cbn; repeat split; try lia; intros (m & Hm); discriminate.
Qed.

Lemma effects_at_most_once_witness :
  countOf isInMemory
    (traceOf (sync (scenario true "rev-2" 3000 2500 3000 (Some "LOCAL"))
                   (bookkeeping (Some "rev-1") 1000))) = 1%nat.
Proof.
  apply (proj2 (proj2 (proj2 (proj2 (proj2
           (effects_at_most_once (scenario true "rev-2" 3000 2500 3000 (Some "LOCAL"))
                                 (bookkeeping (Some "rev-1") 1000))))))).
  exists (mkMeta "rev-2" 3000). reflexivity.
Defined.

(** X8: an attempt returns metadata exactly when it carried an upload
    through: the value returned is what the upload answered, it has a
    revision, and that revision and the change time of the snapshot in memory
    are what the storage then holds; an attempt that returns nothing has no
    upload that got through. *)
Theorem result_is_upload_metadata (env : Env) (ls : LocalStorage) :
  (forall m, resultOf (sync env ls) = Ok (Some m) ->
     upload env (inMemory env) (lastLocalSyncModelChange (inMemory env)) = Ok m
     /\ truthy (rev m) = true
     /\ storageOf (sync env ls)
        = mkLs (Some (rev m)) (Some (lastLocalSyncModelChange (inMemory env)))
               (Some (now env)))
  /\ (logged DBX_Uploaded (traceOf (sync env ls)) = true ->
      exists m, resultOf (sync env ls) = Ok (Some m))
  /\ (resultOf (sync env ls) = Ok None ->
      forall d cm m, ~ In (EvUpload d cm (Ok m)) (traceOf (sync env ls))).
Proof.
  split; [| split].
  - cases_of_sync env ls; cbn; intros m' H; try discriminate; injection H as <-;
      truthy_hyps; repeat split; assumption.
  - cases_of_sync env ls; cbn; intros H; try discriminate; eexists; reflexivity.
  - cases_of_sync env ls; cbn; intros H; try discriminate;
      intros d' cm' m' Hin; pick_event Hin.
Qed.

Lemma result_is_upload_metadata_witness :
  storageOf (sync (scenario true "rev-1" 1000 2000 1000 None) (bookkeeping (Some "rev-1") 1000))
  = mkLs (Some "rev-up") (Some 2000) (Some 5000).
Proof.
  exact (proj2 (proj2 (proj1 (result_is_upload_metadata
                                (scenario true "rev-1" 1000 2000 1000 None)
                                (bookkeeping (Some "rev-1") 1000))
                             (mkMeta "rev-up" 2000) eq_refl))).
Defined.

(** ** The dispatch *)

Lemma isAnswer_exclusive (dr : option string) (s s' : string) :
  isAnswer dr s = true -> s <> s' -> isAnswer dr s' = false.
Proof.
  destruct dr as [a |]; cbn; [| discriminate].
  intros ->%String.eqb_eq Hne. now apply String.eqb_neq.
Qed.

(** X9: on the general path, the decision [RemoteUpdateRequired], and
    likewise [DataDiverged] answered with 'REMOTE', uploads the snapshot in
    memory; when the upload gets through with a revision the attempt returns
    the upload's metadata, stores its revision together with the local change
    time, and imports nothing. *)
Theorem upload_dispatch (env : Env) (ls : LocalStorage) (m dm um : DropboxFileMetadata)
    (rd : AppDataComplete) :
  getMetaData env = Ok m ->
  pre1Stops env ls m = false ->
  pre2Condition (lastLocalSyncModelChange (inMemory env)) (client_modified m)
                (lastSyncOf ls) = false ->
  download env = Ok (dm, rd) ->
  checkForUpdate (syncPointOf env ls rd) = RemoteUpdateRequired
  \/ (checkForUpdate (syncPointOf env ls rd) = DataDiverged
      /\ isAnswer (dialogAfterClosed env) "REMOTE" = true) ->
  upload env (inMemory env) (lastLocalSyncModelChange (inMemory env)) = Ok um ->
  truthy (rev um) = true ->
  resultOf (sync env ls) = Ok (Some um)
  /\ storageOf (sync env ls)
     = mkLs (Some (rev um)) (Some (lastLocalSyncModelChange (inMemory env))) (Some (now env))
  /\ none isImport (traceOf (sync env ls)) = true
  /\ logged DBX_Uploaded (traceOf (sync env ls)) = true.
Proof.
  intros Hm H1 H2 Hd Hdec Hu Ht.
  general_path Hm H1 H2 Hd;
    destruct Hdec as [Hc | [Hc Ha]]; rewrite Hc; cbn; rewrite ?Ha; cbn;
    rewrite Hu; cbn; rewrite Ht; cbn; repeat split.
Qed.

Lemma upload_dispatch_witness :
  resultOf (sync (scenario true "rev-2" 3000 2500 3000 (Some "REMOTE"))
                 (bookkeeping (Some "rev-1") 1000))
  = Ok (Some (mkMeta "rev-up" 2000)).
Proof.
  exact (proj1 (upload_dispatch
                  (scenario true "rev-2" 3000 2500 3000 (Some "REMOTE"))
                  (bookkeeping (Some "rev-1") 1000)
                  (mkMeta "rev-2" 3000) (mkMeta "rev-2" 3000) (mkMeta "rev-up" 2000)
                  (snapshot 3000)
                  eq_refl eq_refl eq_refl eq_refl (or_intror (conj eq_refl eq_refl))
                  eq_refl eq_refl)).
Defined.

(** X10: on the general path, the decision [LocalUpdateRequired], and
    likewise [DataDiverged] answered with 'LOCAL', imports the downloaded
    snapshot; when the download came with a revision and the import gets
    through, the attempt returns nothing, stores the download's revision
    together with the downloaded snapshot's change time, and uploads
    nothing. *)
Theorem import_dispatch (env : Env) (ls : LocalStorage) (m dm : DropboxFileMetadata)
    (rd : AppDataComplete) :
  getMetaData env = Ok m ->
  pre1Stops env ls m = false ->
  pre2Condition (lastLocalSyncModelChange (inMemory env)) (client_modified m)
                (lastSyncOf ls) = false ->
  download env = Ok (dm, rd) ->
  checkForUpdate (syncPointOf env ls rd) = LocalUpdateRequired
  \/ (checkForUpdate (syncPointOf env ls rd) = DataDiverged
      /\ isAnswer (dialogAfterClosed env) "LOCAL" = true) ->
  truthy (rev dm) = true ->
  importCompleteSyncData env rd = Ok tt ->
  resultOf (sync env ls) = Ok None
  /\ storageOf (sync env ls)
     = mkLs (Some (rev dm)) (Some (lastLocalSyncModelChange rd)) (Some (now env))
  /\ none isUpload (traceOf (sync env ls)) = true
  /\ In (EvImport rd (Ok tt)) (traceOf (sync env ls))
  /\ logged DBX_Imported (traceOf (sync env ls)) = true.
Proof.
  intros Hm H1 H2 Hd Hdec Ht Hi.
  assert (Hr : checkForUpdate (syncPointOf env ls rd) = DataDiverged ->
               isAnswer (dialogAfterClosed env) "LOCAL" = true ->
               isAnswer (dialogAfterClosed env) "REMOTE" = false).
  { intros _ Ha. apply (isAnswer_exclusive _ _ _ Ha). discriminate. }
  general_path Hm H1 H2 Hd;
    destruct Hdec as [Hc | [Hc Ha]]; rewrite Hc; cbn;
    try (rewrite (Hr Hc Ha), Ha; cbn);
    rewrite ?Ht; cbn; rewrite ?Hi; cbn; rewrite ?Ht; cbn;
    repeat split; find_in.
Qed.

Lemma import_dispatch_witness :
  storageOf (sync (scenario true "rev-2" 2000 1000 2000 None)
                  (bookkeeping (Some "rev-1") 1000))
  = mkLs (Some "rev-2") (Some 2000) (Some 5000).
Proof.
  exact (proj1 (proj2 (import_dispatch
                         (scenario true "rev-2" 2000 1000 2000 None)
                         (bookkeeping (Some "rev-1") 1000)
                         (mkMeta "rev-2" 2000) (mkMeta "rev-2" 2000) (snapshot 2000)
                         eq_refl eq_refl eq_refl eq_refl (or_introl eq_refl)
                         eq_refl eq_refl))).
Defined.

(** X11: on the general path the decision [InSync] ends the attempt after
    the download with nothing but the log line: it returns nothing, and
    neither the revision token nor the last-sync time is written, so the
    remote's revision is not cached by this path. *)
Theorem in_sync_decision_writes_nothing (env : Env) (ls : LocalStorage)
    (m dm : DropboxFileMetadata) (rd : AppDataComplete) :
  getMetaData env = Ok m ->
  pre1Stops env ls m = false ->
  pre2Condition (lastLocalSyncModelChange (inMemory env)) (client_modified m)
                (lastSyncOf ls) = false ->
  download env = Ok (dm, rd) ->
  checkForUpdate (syncPointOf env ls rd) = InSync ->
  sync env ls = (Ok None, checked env ls, generalPath env ls m ++ [EvLog DBX_InSync]).
Proof.
  intros Hm H1 H2 Hd Hc.
  general_path Hm H1 H2 Hd; rewrite Hc; reflexivity.
Qed.

Lemma in_sync_decision_writes_nothing_witness :
  storageOf (sync (scenario true "rev-1" 1000 1000 1000 None) (bookkeeping None 1000))
  = mkLs None (Some 1000) (Some 5000).
Proof.
  exact (f_equal storageOf
           (in_sync_decision_writes_nothing
              (scenario true "rev-1" 1000 1000 1000 None) (bookkeeping None 1000)
              (mkMeta "rev-1" 1000) (mkMeta "rev-1" 1000) (snapshot 1000)
              eq_refl eq_refl eq_refl eq_refl eq_refl)).
Defined.

(** X12: the conflict dialog is opened only on the decision
    [DataDiverged], and it is handed the very sync point the decision was
    taken on: the change time of the snapshot in memory, the cached last-sync
    time and the change time of the downloaded snapshot. *)
Theorem dialog_only_on_divergence (env : Env) (ls : LocalStorage) (p : SyncPoint)
    (a : option string) :
  In (EvDialog p a) (traceOf (sync env ls)) ->
  checkForUpdate p = DataDiverged
  /\ a = dialogAfterClosed env
  /\ local p = lastLocalSyncModelChange (inMemory env)
  /\ lastSync p = lastSyncOf ls
  /\ exists r, download env = Ok r /\ remote p = lastLocalSyncModelChange (snd r).
Proof.
  cases_of_sync env ls; intros H; pick_event H; injection H as <- <-;
    repeat split; try assumption; eexists; split; reflexivity.
Qed.

Lemma dialog_only_on_divergence_witness :
  checkForUpdate (mkSyncPoint 2500 1000 3000) = DataDiverged.
Proof.
  exact (proj1 (dialog_only_on_divergence
                  (scenario true "rev-2" 3000 2500 3000 (Some "DEFER"))
                  (bookkeeping (Some "rev-1") 1000)
                  (mkSyncPoint 2500 1000 3000) (Some "DEFER")
                  ltac:(vm_compute; find_in))).
Defined.

(** X13: when an upload gets through but its answer carries no revision,
    the attempt fails with 'No rev given' after the upload: the remote file
    has been replaced, yet neither the revision token nor the last-sync time
    is written. *)
Theorem upload_without_rev_not_recorded (env : Env) (ls : LocalStorage)
    (d : AppDataComplete) (cm : Z) (m : DropboxFileMetadata) :
  In (EvUpload d cm (Ok m)) (traceOf (sync env ls)) ->
  truthy (rev m) = false ->
  resultOf (sync env ls) = Err NoRevGiven
  /\ none isBookkeepingWrite (traceOf (sync env ls)) = true
  /\ storageOf (sync env ls) = checked env ls.
Proof.
  cases_of_sync env ls; intros H Ht; pick_event H; injection H as <- <- <-;
    truthy_hyps; try congruence; repeat split.
Qed.

Lemma upload_without_rev_not_recorded_witness :
  resultOf (sync (envOf emptyUploadRev
                        (scenarioWorld (Some "rev-1") 1000 "rev-1" 1000 2000 1000))
                 (bookkeeping (Some "rev-1") 1000))
  = Err NoRevGiven.
Proof.
  exact (proj1 (upload_without_rev_not_recorded
                  (envOf emptyUploadRev
                         (scenarioWorld (Some "rev-1") 1000 "rev-1" 1000 2000 1000))
                  (bookkeeping (Some "rev-1") 1000)
                  (snapshot 2000) 2000 (mkMeta "" 2000)
                  ltac:(vm_compute; find_in) eq_refl)).
Defined.

(** ** What an attempt leaves in the storage, and when it downloads *)

(** X14: apart from the last-sync check, an attempt leaves the storage in
    one of these states: as it was; with the last-sync time set to the
    change time of the snapshot in memory, a number, and the token as it
    was; with the token an upload of the snapshot in memory returned and
    that snapshot's change time; with the token of the download and the
    downloaded snapshot's change time; or, when the uploaded or downloaded
    snapshot's change time is not a number, with that new token beside the
    last-sync time as it was, the attempt having failed with 'No correct
    localLastSync given'. *)
Theorem final_storage_of_an_attempt (env : Nullable.Env) (ls : LocalStorage) :
  Nullable.storageOf (Nullable.sync env ls) = Nullable.checked env ls
  \/ (exists v,
        Nullable.lastLocalSyncModelChange (Nullable.inMemory env) = Num v
        /\ Nullable.storageOf (Nullable.sync env ls)
           = mkLs (LS_DROPBOX_LAST_LOCAL_REVISION ls) (Some v) (Some (Nullable.now env)))
  \/ (exists m,
        Nullable.upload env (Nullable.inMemory env)
          (Nullable.lastLocalSyncModelChange (Nullable.inMemory env)) = Nullable.Ok m
        /\ ((exists v,
               Nullable.lastLocalSyncModelChange (Nullable.inMemory env) = Num v
               /\ Nullable.storageOf (Nullable.sync env ls)
                  = mkLs (Some (rev m)) (Some v) (Some (Nullable.now env)))
            \/ (isNumber (Nullable.lastLocalSyncModelChange (Nullable.inMemory env)) = false
                /\ Nullable.resultOf (Nullable.sync env ls)
                   = Nullable.Err Nullable.NoCorrectLocalLastSync
                /\ Nullable.storageOf (Nullable.sync env ls)
                   = mkLs (Some (rev m)) (LS_DROPBOX_LOCAL_LAST_SYNC ls)
                          (Some (Nullable.now env)))))
  \/ (exists r,
        Nullable.download env = Nullable.Ok r
        /\ ((exists v,
               Nullable.lastLocalSyncModelChange (snd r) = Num v
               /\ Nullable.storageOf (Nullable.sync env ls)
                  = mkLs (Some (rev (fst r))) (Some v) (Some (Nullable.now env)))
            \/ (isNumber (Nullable.lastLocalSyncModelChange (snd r)) = false
                /\ Nullable.resultOf (Nullable.sync env ls)
                   = Nullable.Err Nullable.NoCorrectLocalLastSync
                /\ Nullable.storageOf (Nullable.sync env ls)
                   = mkLs (Some (rev (fst r))) (LS_DROPBOX_LOCAL_LAST_SYNC ls)
                          (Some (Nullable.now env))))).
Proof.
  cases_of_nsync env ls; unfold Nullable.checked; cbn;
    first
      [ left; reflexivity
      | right; left; eexists; split; reflexivity
      | right; right; left; eexists; (split; [reflexivity |]);
        first [ left; eexists; split; reflexivity
              | right; repeat split ]
      | right; right; right; eexists; (split; [reflexivity |]);
        first [ left; eexists; split; [eassumption | reflexivity]
              | right;
                repeat match goal with
                  | E : Nullable.lastLocalSyncModelChange _ = _ |- _ => rewrite E
                  end; repeat split ] ].
Qed.

(** X15: an attempt issues a download exactly when the metadata fetch got
    through and neither pre-check applied; the download is asked with the
    revision token that was cached when the attempt began. *)
Theorem download_iff_no_pre_check (env : Env) (ls : LocalStorage) :
  (existsb isDownload (traceOf (sync env ls)) = true <->
   exists m, getMetaData env = Ok m
     /\ pre1Stops env ls m = false
     /\ pre2Condition (lastLocalSyncModelChange (inMemory env)) (client_modified m)
                      (lastSyncOf ls) = false)
  /\ (forall lr res, In (EvDownload lr res) (traceOf (sync env ls)) ->
        lr = LS_DROPBOX_LAST_LOCAL_REVISION ls /\ res = download env).
Proof.
  split; [split |].
  - unfold pre1Stops, lastSyncOf. cases_of_sync env ls; cbn; intros H; try discriminate;
      eexists; (split; [reflexivity |]);
      repeat match goal with E : _ = _ |- _ => rewrite E end; split; reflexivity.
  - unfold pre1Stops, lastSyncOf. intros (m & Hm & H1 & H2).
    cases_of_sync env ls; cbn; try reflexivity; exfalso;
      try discriminate Hm; injection Hm as ->;
      repeat match goal with
        | E : sameRev _ _ = _ |- _ => rewrite E in H1
        end; cbn in H1; congruence.
  - cases_of_sync env ls; intros lr res H; pick_event H; injection H as <- <-;
      split; reflexivity.
Qed.

Lemma download_iff_no_pre_check_witness :
  existsb isDownload
    (traceOf (sync (scenario true "rev-2" 2000 1000 2000 None)
                   (bookkeeping (Some "rev-1") 1000))) = true.
Proof.
  apply (proj1 (download_iff_no_pre_check (scenario true "rev-2" 2000 1000 2000 None)
                                          (bookkeeping (Some "rev-1") 1000))).
  exists (mkMeta "rev-2" 2000). repeat split.
Defined.

(** X16: with the decision table as modelled, an attempt uploads only a
    snapshot in memory whose change time is after the cached last-sync time,
    and imports only a downloaded snapshot whose change time is after it. *)
Theorem transfers_only_from_side_ahead (env : Env) (ls : LocalStorage) :
  (existsb isUpload (traceOf (sync env ls)) = true ->
   lastSyncOf ls < lastLocalSyncModelChange (inMemory env))
  /\ (forall d res, In (EvImport d res) (traceOf (sync env ls)) ->
        lastSyncOf ls < lastLocalSyncModelChange d).
Proof.
  unfold lastSyncOf. split.
  - cases_of_sync env ls; cbn; intros H; try discriminate;
      match goal with
      | E : pre2Condition _ _ _ = true |- _ => apply pre2Condition_raw in E; lia
      | E : checkForUpdate ?p = _ |- _ =>
          pose proof (checkForUpdate_cases p) as Hcases; cbn in Hcases;
          intuition (try congruence; lia)
      end.
  - cases_of_sync env ls; intros d res H; pick_event H; injection H as <- <-;
      match goal with
      | E : checkForUpdate ?p = _ |- _ =>
          pose proof (checkForUpdate_cases p) as Hcases; cbn in Hcases;
          intuition (try congruence; lia)
      end.
Qed.

Lemma transfers_only_from_side_ahead_witness :
  lastSyncOf (bookkeeping (Some "rev-1") 1000)
  < lastLocalSyncModelChange (inMemory (scenario true "rev-1" 1000 2000 1000 None)).
Proof.
  exact (proj1 (transfers_only_from_side_ahead
                  (scenario true "rev-1" 1000 2000 1000 None)
                  (bookkeeping (Some "rev-1") 1000)) eq_refl).
Defined.

(** X17: an attempt ends in the first pre-check exactly when the metadata
    fetch got through, the remote's revision is the cached one and the cached
    last-sync time is the change time of the snapshot in memory; the attempt
    is then the readiness value, the stamp, the fetch, the two reads, the
    read of the snapshot and two log lines, and nothing else. *)
Theorem pre1_stop_iff (env : Env) (ls : LocalStorage) :
  (logged PRE1_NoLocalChanges (traceOf (sync env ls)) = true <->
   exists m, getMetaData env = Ok m /\ pre1Stops env ls m = true)
  /\ (logged PRE1_NoLocalChanges (traceOf (sync env ls)) = true ->
      sync env ls
      = (Ok None, checked env ls,
         preamble env ++ [EvLog PRE1_SameRev; EvInMemory; EvLog PRE1_NoLocalChanges])).
Proof.
  assert (Hinv : logged PRE1_NoLocalChanges (traceOf (sync env ls)) = true ->
                 exists m, getMetaData env = Ok m /\ pre1Stops env ls m = true).
  { unfold pre1Stops, lastSyncOf. cases_of_sync env ls; cbn; intros H; try discriminate;
      eexists; (split; [reflexivity |]);
      repeat match goal with E : _ = _ |- _ => rewrite E end; reflexivity. }
  split; [split; [exact Hinv |] |].
  - intros (m & Hm & H1). rewrite (sync_pre1_stop env ls m Hm H1). reflexivity.
  - intros (m & Hm & H1)%Hinv. exact (sync_pre1_stop env ls m Hm H1).
Qed.

Lemma pre1_stop_iff_witness :
  logged PRE1_NoLocalChanges
    (traceOf (sync (scenario true "rev-1" 1000 1000 1000 None)
                   (bookkeeping (Some "rev-1") 1000))) = true.
Proof.
  apply (proj1 (pre1_stop_iff (scenario true "rev-1" 1000 1000 1000 None)
                              (bookkeeping (Some "rev-1") 1000))).
  exists (mkMeta "rev-1" 1000). split; reflexivity.
Defined.

(** ** Edges of the second pre-check *)

Lemma pre2Condition_false (l c s : Z) :
  c mod 1000 <> 0 \/ l / 1000 = s / 1000 \/ l <= s -> pre2Condition l c s = false.
Proof.
  intros Hedge. apply not_true_is_false. intros Htrue.
  pose proof (pre2Condition_raw l c s Htrue) as [Hraw _].
  apply pre2Condition_iff in Htrue as [-> Hlt].
  destruct Hedge as [Hc | [He | Hle]]; try lia.
  apply Hc. rewrite Z.mul_comm. apply Z.mod_mul. lia.
Qed.

(** X18: the test of the second pre-check fails whenever the remote's
    modified time is not a whole number of seconds, whenever local and
    lastSync fall into the same whole second, and whenever local is not after
    lastSync; once it holds it keeps holding for every later local change
    time. *)
Theorem pre2Condition_edges (l c s : Z) :
  (c mod 1000 <> 0 -> pre2Condition l c s = false)
  /\ (l / 1000 = s / 1000 -> pre2Condition l c s = false)
  /\ (l <= s -> pre2Condition l c s = false)
  /\ (forall l', pre2Condition l c s = true -> l <= l' -> pre2Condition l' c s = true).
Proof.
  split; [| split; [| split]].
  - intros Hc. apply pre2Condition_false. now left.
  - intros He. apply pre2Condition_false. now right; left.
  - intros Hle. apply pre2Condition_false. now right; right.
  - intros l' [Hc Hlt]%pre2Condition_iff Hle. apply pre2Condition_iff. split; trivial.
    pose proof (Z.div_le_mono l l' 1000). lia.
Qed.

Lemma pre2Condition_edges_witness :
  pre2Condition 2000 1500 1000 = false
  /\ pre2Condition 1999 1000 1000 = false
  /\ pre2Condition 3500 1000 1000 = true.
Proof.
  destruct (pre2Condition_edges 2000 1500 1000) as (Hsub & _).
  destruct (pre2Condition_edges 1999 1000 1000) as (_ & Hsame & _).
  destruct (pre2Condition_edges 2000 1000 1000) as (_ & _ & _ & Hlater).
  split; [apply Hsub; discriminate |].
  split; [apply Hsame; reflexivity |].
  apply Hlater; [reflexivity | discriminate].
Defined.

(** X19: when the remote's modified time is not a whole number of
    seconds, or the snapshot in memory was changed within the whole second of
    the cached last-sync time, the upload fast path is not taken: every upload
    of such an attempt comes after a download. *)
Theorem upload_after_download_unless_whole_second (env : Env) (ls : LocalStorage)
    (m : DropboxFileMetadata) :
  getMetaData env = Ok m ->
  client_modified m mod 1000 <> 0
  \/ lastLocalSyncModelChange (inMemory env) / 1000 = lastSyncOf ls / 1000 ->
  logged PRE2_UpdateRemote (traceOf (sync env ls)) = false
  /\ (existsb isUpload (traceOf (sync env ls)) = true ->
      existsb isDownload (traceOf (sync env ls)) = true).
Proof.
  intros Hm Hedge.
  assert (H2 : pre2Condition (lastLocalSyncModelChange (inMemory env)) (client_modified m)
                 (lastSyncOf ls) = false).
  { apply pre2Condition_false. tauto. }
  unfold lastSyncOf in H2. revert H2.
  cases_of_sync env ls; cbn; intros H2; try discriminate Hm; injection Hm as ->;
    try (split; [reflexivity | trivial; discriminate]); congruence.
Qed.

Lemma upload_after_download_unless_whole_second_witness :
  logged PRE2_UpdateRemote
    (traceOf (sync (scenario true "rev-1" 1500 2000 1000 None)
                   (bookkeeping (Some "rev-1") 1000))) = false.
Proof.
  refine (proj1 (upload_after_download_unless_whole_second
                   (scenario true "rev-1" 1500 2000 1000 None)
                   (bookkeeping (Some "rev-1") 1000) (mkMeta "rev-1" 1500)
                   eq_refl (or_introl _))).
  discriminate.
Defined.

(** ** The helpers *)

(** X20: [_uploadAppData] starts with the upload and makes no other call.
    When it returns, the upload got through with a revision, the snapshot's
    change time is a number, and the storage holds that revision and that
    change time.  When it fails, either nothing was written (the upload
    failed, or it brought no revision), or the upload got through with a
    revision, the snapshot's change time is not a number, and the revision
    was stored beside the last-sync time as it was before the failure with
    'No correct localLastSync given'. *)
Theorem uploadAppData_writes (env : Nullable.Env) (data : Nullable.AppDataComplete)
    (ls : LocalStorage) :
  (forall m, Nullable.resultOf (Nullable._uploadAppData env data ls) = Nullable.Ok m ->
     Nullable.upload env data (Nullable.lastLocalSyncModelChange data) = Nullable.Ok m
     /\ truthy (rev m) = true
     /\ exists v, Nullable.lastLocalSyncModelChange data = Num v
          /\ Nullable.storageOf (Nullable._uploadAppData env data ls)
             = mkLs (Some (rev m)) (Some v) (LS_DROPBOX_LOCAL_LAST_SYNC_CHECK ls))
  /\ (forall e, Nullable.resultOf (Nullable._uploadAppData env data ls) = Nullable.Err e ->
        (Nullable.storageOf (Nullable._uploadAppData env data ls) = ls
         /\ Nullable.none Nullable.isBookkeepingWrite
              (Nullable.traceOf (Nullable._uploadAppData env data ls)) = true
         /\ (Nullable.upload env data (Nullable.lastLocalSyncModelChange data) = Nullable.Err e
             \/ e = Nullable.NoRevGiven))
        \/ (e = Nullable.NoCorrectLocalLastSync
            /\ isNumber (Nullable.lastLocalSyncModelChange data) = false
            /\ exists m,
                 Nullable.upload env data (Nullable.lastLocalSyncModelChange data)
                 = Nullable.Ok m
                 /\ truthy (rev m) = true
                 /\ Nullable.storageOf (Nullable._uploadAppData env data ls)
                    = mkLs (Some (rev m)) (LS_DROPBOX_LOCAL_LAST_SYNC ls)
                           (LS_DROPBOX_LOCAL_LAST_SYNC_CHECK ls)))
  /\ exists t, Nullable.traceOf (Nullable._uploadAppData env data ls)
               = Nullable.EvUpload data (Nullable.lastLocalSyncModelChange data)
                   (Nullable.upload env data (Nullable.lastLocalSyncModelChange data)) :: t
               /\ Nullable.none Nullable.isNetworkCall t = true.
Proof.
  split; [| split].
  - unfold_nupload; cbn; repeat (split_test; cbn); truthy_hyps;
      intros m' H; try discriminate H; injection H as <-; repeat split; try assumption;
      eexists; split; reflexivity.
  - unfold_nupload; cbn; repeat (split_test; cbn); truthy_hyps;
      intros e' H; try discriminate H; injection H as <-;
      first [ left; repeat split; auto; fail
            | right; repeat split; eexists; repeat split; assumption ].
  - unfold_nupload; cbn; repeat (split_test; cbn); eexists; split; reflexivity.
Qed.

Lemma uploadAppData_writes_witness :
  exists v,
    Nullable.lastLocalSyncModelChange (Nullable.snapshot (Num 2000)) = Num v
    /\ Nullable.storageOf
         (Nullable._uploadAppData
            (Nullable.scenario true "rev-1" 1000 (Num 2000) (Num 1000) None)
            (Nullable.snapshot (Num 2000)) (bookkeeping (Some "rev-1") 1000))
       = mkLs (Some "rev-up") (Some v) None.
Proof.
  exact (proj2 (proj2 (proj1 (uploadAppData_writes
           (Nullable.scenario true "rev-1" 1000 (Num 2000) (Num 1000) None)
           (Nullable.snapshot (Num 2000)) (bookkeeping (Some "rev-1") 1000))
           (mkMeta "rev-up" 2000) eq_refl))).
Defined.

(** X21: [_importData] imports only the snapshot it was given, or else the
    one its own download delivered, and only with a revision.  When it
    returns, that import got through, the snapshot's change time is a
    number, and the storage holds the revision and that change time.  When
    it fails, either nothing was written, or the import got through, the
    snapshot's change time is not a number, and the revision was stored
    beside the last-sync time as it was before the failure with 'No correct
    localLastSync given'. *)
Theorem importData_writes (env : Nullable.Env) (data : option Nullable.AppDataComplete)
    (rev' : string) (ls : LocalStorage) :
  (Nullable.resultOf (Nullable._importData env data rev' ls) = Nullable.Ok tt ->
   exists d v, Nullable.resolvedData env data = Some d
     /\ truthy (Nullable.resolvedRev env data rev') = true
     /\ Nullable.importCompleteSyncData env d = Nullable.Ok tt
     /\ Nullable.lastLocalSyncModelChange d = Num v
     /\ Nullable.storageOf (Nullable._importData env data rev' ls)
        = mkLs (Some (Nullable.resolvedRev env data rev')) (Some v)
               (LS_DROPBOX_LOCAL_LAST_SYNC_CHECK ls))
  /\ (forall e, Nullable.resultOf (Nullable._importData env data rev' ls) = Nullable.Err e ->
        (Nullable.storageOf (Nullable._importData env data rev' ls) = ls
         /\ Nullable.none Nullable.isBookkeepingWrite
              (Nullable.traceOf (Nullable._importData env data rev' ls)) = true)
        \/ (e = Nullable.NoCorrectLocalLastSync
            /\ exists d, Nullable.resolvedData env data = Some d
                 /\ isNumber (Nullable.lastLocalSyncModelChange d) = false
                 /\ Nullable.importCompleteSyncData env d = Nullable.Ok tt
                 /\ Nullable.storageOf (Nullable._importData env data rev' ls)
                    = mkLs (Some (Nullable.resolvedRev env data rev'))
                           (LS_DROPBOX_LOCAL_LAST_SYNC ls)
                           (LS_DROPBOX_LOCAL_LAST_SYNC_CHECK ls)))
  /\ (forall d res, In (Nullable.EvImport d res)
                       (Nullable.traceOf (Nullable._importData env data rev' ls)) ->
        Nullable.resolvedData env data = Some d
        /\ res = Nullable.importCompleteSyncData env d
        /\ truthy (Nullable.resolvedRev env data rev') = true).
Proof.
  split; [| split].
  - destruct data as [d0 |]; run_nimport; truthy_hyps; intros H; try discriminate H;
      repeat match goal with u : unit |- _ => destruct u end;
      eexists; eexists; repeat split; try reflexivity; try eassumption.
  - destruct data as [d0 |]; run_nimport; intros e' H; try discriminate H;
      injection H as <-;
      repeat match goal with u : unit |- _ => destruct u end;
      first [ left; split; reflexivity
            | right; split; [reflexivity |]; eexists; repeat split;
              try reflexivity; try eassumption;
              match goal with E : Nullable.lastLocalSyncModelChange _ = _ |- _ =>
                rewrite E end; reflexivity ].
  - destruct data as [d0 |]; run_nimport; truthy_hyps; intros d' res H; pick_event H;
      injection H as <- <-; repeat split; congruence.
Qed.

Lemma importData_writes_witness :
  exists d v,
    Nullable.resolvedData (Nullable.scenario true "rev-2" 2000 (Num 1000) (Num 2000) None) None
    = Some d
    /\ Nullable.lastLocalSyncModelChange d = Num v
    /\ Nullable.storageOf
         (Nullable._importData (Nullable.scenario true "rev-2" 2000 (Num 1000) (Num 2000) None)
                               None "" (bookkeeping (Some "rev-1") 1000))
       = mkLs (Some "rev-2") (Some v) None.
Proof.
  destruct (proj1 (importData_writes
              (Nullable.scenario true "rev-2" 2000 (Num 1000) (Num 2000) None)
              None "" (bookkeeping (Some "rev-1") 1000)) eq_refl)
    as (d & v & Hd & _ & _ & Hv & Hs).
  exists d, v. split; [exact Hd | split; [exact Hv | exact Hs]].
Defined.

(** ** The observables *)

Lemma strictEqBool_eq (a b : option bool) : strictEqBool a b = true <-> a = b.
Proof.
  destruct a as [[] |], b as [[] |]; cbn; split; intros H; congruence.
Qed.

Lemma strictEqNumber_eq (a b : JsNumber) : strictEqNumber a b = true <-> a = b.
Proof.
  destruct a as [x | |], b as [y | |]; cbn; split; intros H; try congruence.
  - apply Z.eqb_eq in H. congruence.
  - injection H as ->. apply Z.eqb_refl.
Qed.

Section DistinctUntilChanged.
Context {A : Type} (eqb : A -> A -> bool).
Hypothesis eqb_eq : forall a b, eqb a b = true <-> a = b.

Lemma distinctAfter_noRepeats (prev : A) (s : list A) :
  noRepeats eqb (prev :: distinctAfter eqb prev s) = true.
Proof.
  revert prev. induction s as [| x s IH]; intros prev; [reflexivity |].
  cbn [distinctAfter]. destruct (eqb prev x) eqn:E; [apply IH |].
  change (negb (eqb prev x) && noRepeats eqb (x :: distinctAfter eqb x s) = true).
  now rewrite E, IH.
Qed.

Lemma distinctUntilChanged_noRepeats (s : list A) :
  noRepeats eqb (distinctUntilChanged eqb s) = true.
Proof. destruct s; [reflexivity | apply distinctAfter_noRepeats]. Qed.

Lemma distinctAfter_In (prev : A) (s : list A) (v : A) :
  In v (prev :: distinctAfter eqb prev s) <-> In v (prev :: s).
Proof.
  revert prev. induction s as [| x s IH]; intros prev; [reflexivity |].
  cbn [distinctAfter]. destruct (eqb prev x) eqn:E.
  - apply eqb_eq in E as <-. rewrite IH. cbn. tauto.
  - specialize (IH x). cbn in *. tauto.
Qed.

Lemma distinctUntilChanged_In (s : list A) (v : A) :
  In v (distinctUntilChanged eqb s) <-> In v s.
Proof. destruct s; [reflexivity | apply distinctAfter_In]. Qed.

Lemma distinctAfter_snoc (prev : A) (s : list A) (y x : A) :
  distinctAfter eqb prev (s ++ [y; x])
  = distinctAfter eqb prev (s ++ [y]) ++ (if eqb y x then [] else [x]).
Proof.
  revert prev. induction s as [| z s IH]; intros prev; cbn [app distinctAfter].
  - destruct (eqb prev y) eqn:E; [| reflexivity].
    apply eqb_eq in E as ->. destruct (eqb y x); reflexivity.
  - destruct (eqb prev z); rewrite IH; reflexivity.
Qed.

Lemma distinctUntilChanged_snoc (s : list A) (y x : A) :
  distinctUntilChanged eqb (s ++ [y; x])
  = distinctUntilChanged eqb (s ++ [y]) ++ (if eqb y x then [] else [x]).
Proof.
  destruct s as [| z s]; cbn [app distinctUntilChanged distinctAfter].
  - destruct (eqb y x); reflexivity.
  - now rewrite distinctAfter_snoc.
Qed.
End DistinctUntilChanged.

Lemma readyOf_true (p : bool * option bool) :
  readyOf p = Some true <-> p = (true, Some true).
Proof.
  destruct p as [[] [[] |]]; cbn; split; congruence.
Qed.

(** X23: [isEnabledAndReady$] never emits the value it emitted last; the
    values it emits are those the latest pairs of token flag and enabled flag
    give, and it emits true exactly when some pair has the token available
    and a config that is present and enabled.  [_isReadyForRequests$] yields
    nothing before the first pair and then the value of the first pair,
    whatever comes later, and that value is truthy only for a first pair with
    the token available and sync enabled. *)
Theorem isEnabledAndReady_emits_changes (latest' : list (bool * option bool)) :
  noRepeats strictEqBool (isEnabledAndReady' latest') = true
  /\ (forall v, In v (isEnabledAndReady' latest') <->
                exists p, In p latest' /\ readyOf p = v)
  /\ (In (Some true) (isEnabledAndReady' latest') <-> In (true, Some true) latest')
  /\ (_isReadyForRequests' latest' = None <-> latest' = [])
  /\ (forall p rest, latest' = p :: rest ->
        _isReadyForRequests' latest' = Some (readyOf p)
        /\ (truthyBool (readyOf p) = true <-> p = (true, Some true))).
Proof.
  assert (Hin : forall v, In v (isEnabledAndReady' latest') <->
                          exists p, In p latest' /\ readyOf p = v).
  { intros v. unfold isEnabledAndReady'.
    rewrite (distinctUntilChanged_In _ strictEqBool_eq), in_map_iff.
    split; intros (p & H1 & H2); exists p; tauto. }
  split; [apply distinctUntilChanged_noRepeats |]. split; [exact Hin |].
  split; [| split].
  - rewrite Hin. split.
    + intros (p & Hp & ->%readyOf_true). exact Hp.
    + intros Hp. exists (true, Some true). split; [exact Hp | reflexivity].
  - destruct latest'; cbn; split; congruence.
  - intros p rest ->. split; [reflexivity |].
    destruct p as [[] [[] |]]; cbn; split; congruence.
Qed.

Lemma isEnabledAndReady_emits_changes_witness :
  In (Some true) (isEnabledAndReady' [(false, None); (true, None); (true, Some true)])
  /\ _isReadyForRequests' [(false, None); (true, None); (true, Some true)] = Some (Some false).
Proof.
  destruct (isEnabledAndReady_emits_changes [(false, None); (true, None); (true, Some true)])
    as (_ & _ & Htrue & _ & Hfirst).
  split.
  - apply Htrue. cbn. tauto.
  - exact (proj1 (Hfirst (false, None) [(true, None); (true, Some true)] eq_refl)).
Defined.

(** X24: [syncInterval$] never emits the value it emitted last, compared
    with [===]: a config that arrives with the interval of the one before
    it adds nothing to the stream, and one with another interval adds
    exactly that interval.  A missing Dropbox config counts as the value it
    is, so [null] after [undefined] is a change and is emitted. *)
Theorem syncInterval_emits_changes (cfg' : list GlobalConfig) (c1 c2 : GlobalConfig) :
  noRepeats strictEqNumber (syncInterval' cfg') = true
  /\ (intervalOf (dropboxSync c1) = intervalOf (dropboxSync c2) ->
      syncInterval' (cfg' ++ [c1; c2]) = syncInterval' (cfg' ++ [c1]))
  /\ (intervalOf (dropboxSync c1) <> intervalOf (dropboxSync c2) ->
      syncInterval' (cfg' ++ [c1; c2])
      = syncInterval' (cfg' ++ [c1]) ++ [intervalOf (dropboxSync c2)]).
Proof.
  unfold syncInterval', dropboxCfg'.
  split; [apply distinctUntilChanged_noRepeats |].
  rewrite !map_app. cbn [map].
  rewrite (distinctUntilChanged_snoc _ strictEqNumber_eq).
  split; intros H.
  - apply strictEqNumber_eq in H. rewrite H. apply app_nil_r.
  - destruct (strictEqNumber _ _) eqn:E; [| reflexivity].
    apply strictEqNumber_eq in E. contradiction.
Qed.

Lemma syncInterval_emits_changes_witness :
  syncInterval' [mkGlobalConfig NoConfig;
                 mkGlobalConfig (Config (mkDropboxSyncConfig (Num 60000)));
                 mkGlobalConfig (Config (mkDropboxSyncConfig (Num 60000)))]
  = syncInterval' [mkGlobalConfig NoConfig;
                   mkGlobalConfig (Config (mkDropboxSyncConfig (Num 60000)))]
  /\ syncInterval' [mkGlobalConfig NoConfig; mkGlobalConfig NullConfig;
                    mkGlobalConfig (Config (mkDropboxSyncConfig Null))]
     = [Undefined; Null].
Proof.
  split.
  - exact (proj1 (proj2 (syncInterval_emits_changes
                           [mkGlobalConfig NoConfig]
                           (mkGlobalConfig (Config (mkDropboxSyncConfig (Num 60000))))
                           (mkGlobalConfig (Config (mkDropboxSyncConfig (Num 60000))))))
                 eq_refl).
  - exact (eq_trans
             (proj1 (proj2 (syncInterval_emits_changes
                              [mkGlobalConfig NoConfig]
                              (mkGlobalConfig NullConfig)
                              (mkGlobalConfig (Config (mkDropboxSyncConfig Null)))))
                    eq_refl)
             (proj2 (proj2 (syncInterval_emits_changes
                              []
                              (mkGlobalConfig NoConfig) (mkGlobalConfig NullConfig)))
                    ltac:(discriminate))).
Defined.
